(** * LoginServer: the login coordinator of the game-world nodes

    A shallow embedding of [src/server/login/LoginServer.ts].  The message
    handler registered on every world-node socket is transcribed statement
    by statement into a small monad that threads the durable store (the
    [account] and [session] tables and the save files) and the list of
    frames written with [s.send], and that knows the handler's [return;].

    What lies outside the file is taken as an interface ([Platform]):
    [bcrypt], [PlayerLoading.verify], [String.prototype.toLowerCase], the
    base64 codec of [Buffer], [toDbDate] and [Environment].  Queries are
    taken to succeed.  The file tree is a set of directories and a map of
    regular files, both keyed by the path as it is written: [readFile] of
    a path that holds no regular file throws, [writeFile] throws on a
    directory and under a missing directory, [mkdir] throws when a file
    is in the way.  An exception ends the handler in the [catch] of line
    184, keeping what was written before it.

    [handle] is one message handled from its first statement to its last
    with no other handler running in between; the handler is [async], and
    [login_after_select] is what is left of a login after its first
    [await], to let two logins interleave there. *)

From Stdlib Require Import ZArith Strings.Byte Strings.Ascii Strings.String.
From stdpp Require Import base option list strings gmap.

Local Open Scope Z_scope.

(** ** Rows of the two tables *)

Module Account.
Record t := mk {
  id : Z;
  username : string;
  password : string;
  logged_in : Z;
  login_time : option Z;
  banned_until : option Z;
  muted_until : option Z;
  staffmodlevel : Z
}.

(** [.set({ logged_in, login_time })] *)
Definition set_logged_in (node : Z) (time : option Z) (a : t) : t :=
  mk (id a) (username a) (password a) node time
     (banned_until a) (muted_until a) (staffmodlevel a).

(** [.set({ banned_until })] *)
Definition set_banned_until (until : option Z) (a : t) : t :=
  mk (id a) (username a) (password a) (logged_in a) (login_time a)
     until (muted_until a) (staffmodlevel a).

(** [.set({ muted_until })] *)
Definition set_muted_until (until : option Z) (a : t) : t :=
  mk (id a) (username a) (password a) (logged_in a) (login_time a)
     (banned_until a) until (staffmodlevel a).
End Account.

Module Session.
Record t := mk {
  uuid : string;
  account_id : Z;
  profile : string;
  world : Z;
  timestamp : Z;
  uid : Z;
  ip : string
}.
End Session.

(** ** Frames written back with [s.send(JSON.stringify(...))]

    A field that the object literal does not have is [None]; [muted_until]
    can be present and [null], hence the nested option. *)

Module Reply.
Record t := mk {
  replyTo : Z;
  response : Z;
  staffmodlevel : option Z;
  save : option string;
  muted_until : option (option Z)
}.
End Reply.

(** ** Inbound messages: [type] with its own fields, and the fields read
    from every message at line 26 *)

Inductive Fields :=
  | world_startup
  | player_login (replyTo : Z) (username password : string) (uid : Z)
                 (socket remoteAddress : string)
  | player_logout (replyTo : Z) (username save : string)
  | player_autosave (username save : string)
  | player_force_logout (username : string)
  | player_ban (_staff username : string) (until : Z)
  | player_mute (_staff username : string) (until : Z)
  | unhandled.

Record Msg := {
  type : Fields;
  nodeId : Z;
  nodeTime : Z;
  profile : string
}.

(** ** The durable store *)

Record Store := {
  account : list Account.t;
  session : list Session.t;
  files : gmap string (list byte);
  dirs : gset string
}.

(** What one run of the handler reads from outside: the clock at line 63
    and at line 100, and the salt [bcrypt.hashSync] draws. *)
Record Runtime := {
  Date_at_ban_check : Z;
  Date_at_claim : Z;
  bcrypt_salt : string
}.

(** ** What the handler imports *)

Class Platform := {
  WEBSITE_REGISTRATION : bool;
  bcrypt_hashSync : string → Z → string → string;
  bcrypt_compare : string → string → bool;
  PlayerLoading_verify : list byte → bool;
  toLowerCase : string → string;
  Buffer_from_base64 : string → list byte;
  Buffer_toString_base64 : list byte → string;
  toDbDate : Z → Z
}.

(** ** The handler monad *)

Inductive Flow (A : Type) :=
  | Next (a : A)      (* fall through to the next statement *)
  | Return            (* [return;] *)
  | Throw.            (* an exception, caught and logged at line 184 *)
Arguments Next {A} a.
Arguments Return {A}.
Arguments Throw {A}.

Record World := {
  store : Store;
  sent : list Reply.t
}.

Definition Async (A : Type) : Type := World → Flow A * World.

Definition pure {A} (a : A) : Async A := fun w => (Next a, w).

Definition bind {A B} (m : Async A) (k : A → Async B) : Async B :=
  fun w =>
    match m w with
    | (Next a, w') => k a w'
    | (Return, w') => (Return, w')
    | (Throw, w') => (Throw, w')
    end.

Definition return_ {A} : Async A := fun w => (Return, w).
Definition throw {A} : Async A := fun w => (Throw, w).

Declare Scope async_scope.
Delimit Scope async_scope with async.
Bind Scope async_scope with Async.
Notation "x <- m ;; k" := (bind m (fun x => k))
  (at level 100, m at next level, k at level 200, right associativity)
  : async_scope.
Notation "m ;; k" := (bind m (fun _ => k))
  (at level 100, k at level 200, right associativity) : async_scope.
Local Open Scope async_scope.

(** [!account] on what [executeTakeFirst] gives *)
Definition undefined {A} (x : option A) : bool :=
  match x with
  | None => true
  | Some _ => false
  end.

(** [if (c) { body }] with no [else] *)
Definition when (c : bool) (body : Async unit) : Async unit :=
  if c then body else pure tt.

Definition on_store (f : Store → Store) : Async unit :=
  fun w => (Next tt, {| store := f (store w); sent := sent w |}).

Definition read_store {A} (f : Store → A) : Async A :=
  fun w => (Next (f (store w)), w).

(** [s.send]: frames leave in the order they are written *)
Definition send (r : Reply.t) : Async unit :=
  fun w => (Next tt, {| store := store w; sent := sent w ++ [r] |}).

(** ** Store operations *)

Definition with_account (f : list Account.t → list Account.t) (st : Store) : Store :=
  {| account := f (account st); session := session st;
     files := files st; dirs := dirs st |}.

(** [db.selectFrom('account').where(...).selectAll().executeTakeFirst()] *)
Definition select_account (where_ : Account.t → bool) : Async (option Account.t) :=
  read_store (fun st => find where_ (account st)).

(** [db.updateTable('account').set(...).where(...)]: every matching row *)
Definition update_account (set : Account.t → Account.t) (where_ : Account.t → bool)
  : Async unit :=
  on_store (with_account (map (fun a => if where_ a then set a else a))).

(** The key the table gives a new row. *)
Definition next_id (rows : list Account.t) : Z :=
  1 + foldr (fun a m => Z.max (Account.id a) m) 0 rows.

(** Modelled from the spec: the [account] table's schema is not in the
    source; a row inserted with a username and a password only is unowned
    ([logged_in = 0], [login_time = null]), neither banned nor muted, of
    staff level 0, and gets a fresh key. *)
Definition insert_account (username password : string) : Async unit :=
  on_store (with_account (fun rows =>
    rows ++ [Account.mk (next_id rows) username password 0 None None None 0])).

(** [db.insertInto('session').values(...)] *)
Definition insert_session (row : Session.t) : Async unit :=
  on_store (fun st =>
    {| account := account st; session := session st ++ [row];
       files := files st; dirs := dirs st |}).

(** [fs.existsSync]: true of a regular file and of a directory *)
Definition exists_in (st : Store) (path : string) : bool :=
  match files st !! path with
  | Some _ => true
  | None => bool_decide (path ∈ dirs st)
  end.

Definition existsSync (path : string) : Async bool :=
  read_store (fun st => exists_in st path).

(** A path that holds a regular file. *)
Definition is_file (st : Store) (path : string) : bool :=
  match files st !! path with
  | Some _ => true
  | None => false
  end.

Fixpoint with_slash (s : string) : bool :=
  match s with
  | EmptyString => false
  | String c s' => Ascii.eqb c "/" || with_slash s'
  end.

(** What precedes the last ["/"] of a path: the directory in which the
    file system looks up the last name. *)
Fixpoint dirname (path : string) : string :=
  match path with
  | EmptyString => EmptyString
  | String c rest =>
      if with_slash rest then String c (dirname rest) else EmptyString
  end.

(** The directories above a path, outermost first. *)
Fixpoint ancestors_from (above path : string) : list string :=
  match path with
  | EmptyString => []
  | String c rest =>
      (if Ascii.eqb c "/" then [above] else [])
      ++ ancestors_from (above +:+ String c EmptyString) rest
  end.

Definition ancestors (path : string) : list string := ancestors_from "" path.

(** A regular file is at the path or at a directory above it. *)
Definition in_the_way (st : Store) (path : string) : bool :=
  existsb (is_file st) (ancestors path ++ [path]).

(** The path and the directories above it. *)
Definition made (path : string) : gset string :=
  list_to_set (ancestors path ++ [path]).

(** [fsp.mkdir(path, { recursive: true })]: makes the directory and every
    missing directory above it; rejects, making none, when a regular file
    is in the way. *)
Definition mkdir (path : string) : Async unit :=
  fun w =>
    if in_the_way (store w) path
    then throw w      (* ENOTDIR, EEXIST *)
    else on_store (fun st =>
           {| account := account st; session := session st;
              files := files st; dirs := made path ∪ dirs st |}) w.

(** [fsp.writeFile]: rejects when the path is a directory, and when the
    directory of the path is missing. *)
Definition writeFile (path : string) (raw : list byte) : Async unit :=
  fun w =>
    if bool_decide (path ∈ dirs (store w))
    then throw w      (* EISDIR *)
    else if bool_decide (dirname path ∈ dirs (store w))
    then on_store (fun st =>
           {| account := account st; session := session st;
              files := <[ path := raw ]> (files st); dirs := dirs st |}) w
    else throw w.     (* ENOENT, ENOTDIR *)

(** [fsp.readFile] *)
Definition readFile (path : string) : Async (list byte) :=
  fun w =>
    match files (store w) !! path with
    | Some raw => pure raw w
    | None => throw w      (* ENOENT, or EISDIR on a directory *)
    end.

(** ** The handler, lines 23 to 187 *)

Section Handler.
Context `{Platform}.

(** [`data/players/${profile}`] *)
Definition profile_dir (profile : string) : string :=
  "data/players/" +:+ profile.

(** [`data/players/${profile}/${username}.sav`] *)
Definition save_path (profile username : string) : string :=
  "data/players/" +:+ profile +:+ "/" +:+ username +:+ ".sav".

(** The test of line 63. *)
Definition banned (now : Z) (a : Account.t) : bool :=
  match Account.banned_until a with
  | Some until => now <? until
  | None => false
  end.

(** Lines 127-136 and 150-159: verify, then write. *)
Definition write_save (profile username save : string) : Async unit :=
  let raw := Buffer_from_base64 save in
  if PlayerLoading_verify raw then
    exists_ <- existsSync (profile_dir profile) ;;
    when (negb exists_) (mkdir (profile_dir profile)) ;;
    writeFile (save_path profile username) raw
  else
    pure tt.  (* console.error(username, 'Invalid save file') *)

(** Lines 127-136 run to their end: the save does not verify and is
    skipped, or it verifies and no file operation throws. *)
Definition write_completes (st : Store) (profile username save : string) : bool :=
  match fst (write_save profile username save {| store := st; sent := [] |}) with
  | Next _ => true
  | _ => false
  end.

Definition on_player_login (rt : Runtime) (nodeId nodeTime : Z) (profile : string)
    (replyTo : Z) (username password : string) (uid : Z)
    (socket remoteAddress : string) : Async unit :=
  account <- select_account (fun a => String.eqb (Account.username a) username) ;;
  when (negb WEBSITE_REGISTRATION && undefined account) (
    insert_account username
      (bcrypt_hashSync (toLowerCase password) 10 (bcrypt_salt rt)) ;;
    send (Reply.mk replyTo 4 (Some 0) None None) ;;
    return_
  ) ;;
  account <- match account with
            | None =>
                send (Reply.mk replyTo 1 None None None) ;; return_
            | Some account =>
                if negb (bcrypt_compare (toLowerCase password)
                                        (Account.password account))
                then send (Reply.mk replyTo 1 None None None) ;; return_
                else pure account
            end ;;
  when (banned (Date_at_ban_check rt) account) (
    send (Reply.mk replyTo 5 None None None) ;;
    return_
  ) ;;
  insert_session
    (Session.mk socket (Account.id account) profile nodeId
                (toDbDate nodeTime) uid remoteAddress) ;;
  (if Account.logged_in account =? nodeId then
     send (Reply.mk replyTo 2 None None None)
   else if negb (Account.logged_in account =? 0) then
     send (Reply.mk replyTo 3 None None None) ;;
     return_
   else pure tt) ;;
  update_account
    (Account.set_logged_in nodeId (Some (toDbDate (Date_at_claim rt))))
    (fun a => Account.id a =? Account.id account) ;;
  exists_ <- existsSync (save_path profile username) ;;
  when (negb exists_) (
    send (Reply.mk replyTo 4 (Some (Account.staffmodlevel account)) None
                   (Some (Account.muted_until account))) ;;
    return_
  ) ;;
  save <- readFile (save_path profile username) ;;
  send (Reply.mk replyTo 0 (Some (Account.staffmodlevel account))
                 (Some (Buffer_toString_base64 save))
                 (Some (Account.muted_until account))).

Definition on_message (rt : Runtime) (msg : Msg) : Async unit :=
  match type msg with
  | world_startup =>
      update_account (Account.set_logged_in 0 None)
                     (fun a => Account.logged_in a =? nodeId msg)
  | player_login replyTo username password uid socket remoteAddress =>
      on_player_login rt (nodeId msg) (nodeTime msg) (profile msg)
                      replyTo username password uid socket remoteAddress
  | player_logout replyTo username save =>
      write_save (profile msg) username save ;;
      update_account (Account.set_logged_in 0 None)
                     (fun a => String.eqb (Account.username a) username) ;;
      send (Reply.mk replyTo 0 None None None)
  | player_autosave username save =>
      write_save (profile msg) username save
  | player_force_logout username =>
      update_account (Account.set_logged_in 0 None)
                     (fun a => String.eqb (Account.username a) username)
  | player_ban _ username until =>
      update_account (Account.set_banned_until (Some (toDbDate until)))
                     (fun a => String.eqb (Account.username a) username)
  | player_mute _ username until =>
      update_account (Account.set_muted_until (Some (toDbDate until)))
                     (fun a => String.eqb (Account.username a) username)
  | unhandled => pure tt
  end.

(** One message on one socket: the store afterwards and the frames sent. *)
Definition handle (rt : Runtime) (st : Store) (msg : Msg) : Store * list Reply.t :=
  let w := snd (on_message rt msg {| store := st; sent := [] |}) in
  (store w, sent w).

(** What is left of a login once the select of line 36 has answered:
    lines 38 to 121, on the row the select gave.  The handler is [async],
    and another handler may run between the select and these lines. *)
Definition login_after_select (rt : Runtime) (nodeId nodeTime : Z) (profile : string)
    (replyTo : Z) (username password : string) (uid : Z)
    (socket remoteAddress : string) (account : option Account.t) : Async unit :=
  when (negb WEBSITE_REGISTRATION && undefined account) (
    insert_account username
      (bcrypt_hashSync (toLowerCase password) 10 (bcrypt_salt rt)) ;;
    send (Reply.mk replyTo 4 (Some 0) None None) ;;
    return_
  ) ;;
  account <- match account with
            | None =>
                send (Reply.mk replyTo 1 None None None) ;; return_
            | Some account =>
                if negb (bcrypt_compare (toLowerCase password)
                                        (Account.password account))
                then send (Reply.mk replyTo 1 None None None) ;; return_
                else pure account
            end ;;
  when (banned (Date_at_ban_check rt) account) (
    send (Reply.mk replyTo 5 None None None) ;;
    return_
  ) ;;
  insert_session
    (Session.mk socket (Account.id account) profile nodeId
                (toDbDate nodeTime) uid remoteAddress) ;;
  (if Account.logged_in account =? nodeId then
     send (Reply.mk replyTo 2 None None None)
   else if negb (Account.logged_in account =? 0) then
     send (Reply.mk replyTo 3 None None None) ;;
     return_
   else pure tt) ;;
  update_account
    (Account.set_logged_in nodeId (Some (toDbDate (Date_at_claim rt))))
    (fun a => Account.id a =? Account.id account) ;;
  exists_ <- existsSync (save_path profile username) ;;
  when (negb exists_) (
    send (Reply.mk replyTo 4 (Some (Account.staffmodlevel account)) None
                   (Some (Account.muted_until account))) ;;
    return_
  ) ;;
  save <- readFile (save_path profile username) ;;
  send (Reply.mk replyTo 0 (Some (Account.staffmodlevel account))
                 (Some (Buffer_toString_base64 save))
                 (Some (Account.muted_until account))).

(** A stretch of the handler run on a store: the store it leaves and the
    frames it sends. *)
Definition run_on (m : Async unit) (st : Store) : Store * list Reply.t :=
  let w := snd (m {| store := st; sent := [] |}) in
  (store w, sent w).

(** The row [player_login] works on. *)
Definition lookup_account (st : Store) (username : string) : option Account.t :=
  find (fun a => String.eqb (Account.username a) username) (account st).

(** The session row of lines 72-80. *)
Definition session_row (msg : Msg) (socket : string) (uid : Z)
    (remoteAddress : string) (acc : Account.t) : Session.t :=
  Session.mk socket (Account.id acc) (profile msg) (nodeId msg)
             (toDbDate (nodeTime msg)) uid remoteAddress.

(** The frames that end a login that was let through: lines 103-121. *)
Definition reply_no_save (replyTo : Z) (acc : Account.t) : Reply.t :=
  Reply.mk replyTo 4 (Some (Account.staffmodlevel acc)) None
           (Some (Account.muted_until acc)).

Definition reply_save (replyTo : Z) (acc : Account.t) (raw : list byte) : Reply.t :=
  Reply.mk replyTo 0 (Some (Account.staffmodlevel acc))
           (Some (Buffer_toString_base64 raw)) (Some (Account.muted_until acc)).

(** The row after the update of lines 98-101. *)
Definition claimed (rt : Runtime) (msg : Msg) (acc : Account.t) : Account.t :=
  Account.set_logged_in (nodeId msg) (Some (toDbDate (Date_at_claim rt))) acc.

End Handler.

Arguments save_path : simpl never.
Arguments profile_dir : simpl never.
Arguments dirname : simpl never.
Arguments ancestors : simpl never.
Arguments in_the_way : simpl never.
Arguments made : simpl never.

(** ** A platform to run the handler on

    Small stand-ins for the imports, so that the handler evaluates on
    concrete messages: a hash that keeps the data after the salt, a save
    check on the first two bytes, ASCII lower-casing, a codec that carries
    the bytes as they are, and dates cut to the second. *)

Module Sample.

Definition lower_ascii (c : ascii) : ascii :=
  let n := nat_of_ascii c in
  if ((65 <=? n) && (n <=? 90))%nat then ascii_of_nat (n + 32) else c.

Fixpoint lower (s : string) : string :=
  match s with
  | EmptyString => EmptyString
  | String c s' => String (lower_ascii c) (lower s')
  end.

(** What follows the first ["$"]. *)
Fixpoint after_dollar (s : string) : string :=
  match s with
  | EmptyString => EmptyString
  | String c s' => if Ascii.eqb c "$" then s' else after_dollar s'
  end.

Definition platform (website_registration : bool) : Platform := {|
  WEBSITE_REGISTRATION := website_registration;
  bcrypt_hashSync := fun data _ salt => salt +:+ "$" +:+ data;
  bcrypt_compare := fun data hash => String.eqb (after_dollar hash) data;
  PlayerLoading_verify := fun raw =>
    match raw with
    | x20 :: x04 :: _ => true
    | _ => false
    end;
  toLowerCase := lower;
  Buffer_from_base64 := list_byte_of_string;
  Buffer_toString_base64 := string_of_list_byte;
  toDbDate := fun t => t / 1000 * 1000
|}.

Definition bob : Account.t :=
  Account.mk 1 "bob" "salt$hunter2" 7 (Some 1000) None None 0.
Definition carol : Account.t :=
  Account.mk 2 "carol" "salt$secret" 0 None None None 1.
Definition dave : Account.t :=
  Account.mk 3 "dave" "salt$letmein" 0 None (Some 900000) None 0.

Definition st0 : Store :=
  {| account := [bob; carol; dave]; session := [];
     files := {[ "data/players/main/carol.sav" := [x20; x04; x01] ]};
     dirs := {[ "data/players/main" ]} |}.

Definition rt0 : Runtime :=
  {| Date_at_ban_check := 5000; Date_at_claim := 5001; bcrypt_salt := "pepper" |}.

Definition login (node : Z) (username password : string) : Msg :=
  {| type := player_login 41 username password 99 "sock" "10.0.0.1";
     nodeId := node; nodeTime := 4000; profile := "main" |}.

End Sample.


(** ** Predicates on the store *)

(** The columns of an account row that no branch of the handler sets. *)
Definition identity (a : Account.t) : Z * string * string * Z :=
  (Account.id a, Account.username a, Account.password a, Account.staffmodlevel a).

(** No two rows of the account table have the same username. *)
Definition usernames_unique (st : Store) : Prop :=
  NoDup (map Account.username (account st)).

(** A row that no node owns has no login time. *)
Definition unowned_without_time (st : Store) : Prop :=
  ∀ a, a ∈ account st → Account.logged_in a = 0 → Account.login_time a = None.

(** Every file of the tree passes [PlayerLoading.verify]. *)
Definition saves_verified `{Platform} (st : Store) : Prop :=
  ∀ path raw, files st !! path = Some raw → PlayerLoading_verify raw = true.

(** A name with no ["/"] in it. *)
Fixpoint no_slash (s : string) : bool :=
  match s with
  | EmptyString => true
  | String c s' => negb (Ascii.eqb c "/") && no_slash s'
  end.

(** A name that is one entry of a directory: neither empty, nor ["."],
    nor [".."], and with no ["/"] in it. *)
Definition plain_name (s : string) : bool :=
  no_slash s && negb (String.eqb s "") && negb (String.eqb s ".")
  && negb (String.eqb s "..").

(** No two rows of the account table have the same id. *)
Definition ids_unique (st : Store) : Prop :=
  NoDup (map Account.id (account st)).

(** * Properties of the handler *)

(** ** Lists of rows *)

Lemma find_map_stable {A} (p : A → bool) (g : A → A) (l : list A) :
  (∀ a, p (g a) = p a) → find p (map g l) = g <$> find p l.
Proof.
  intros Hp. induction l as [|a l IH]; simpl; [done|].
  rewrite Hp. by destruct (p a).
Qed.

Lemma find_some_holds {A} (p : A → bool) (l : list A) (a : A) :
  find p l = Some a → p a = true.
Proof. intros Hf. by destruct (find_some _ _ Hf). Qed.

(** ** Unfolding the monad *)

Ltac run :=
  unfold write_completes in *;
  unfold handle, on_message, on_player_login, write_save, select_account,
    update_account, insert_account, insert_session, existsSync, mkdir,
    writeFile, readFile, read_store, on_store, send, when, bind, pure,
    return_, throw, lookup_account, with_account, exists_in in *;
  simpl in *.

(** The tests of the file operations, one after the other. *)
Ltac file_cases :=
  repeat match goal with
  | Hf : files ?st !! ?p = _ |- context [files ?st !! ?p] => rewrite Hf; simpl
  | |- context [PlayerLoading_verify ?r] =>
      destruct (PlayerLoading_verify r) eqn:?Hver; simpl
  | |- context [files ?st !! ?p] => destruct (files st !! p) eqn:?Hfile; simpl
  | |- context [in_the_way ?s ?p] => destruct (in_the_way s p) eqn:?Hway; simpl
  | |- context [bool_decide ?P] => destruct (bool_decide P) eqn:?Hdir; simpl
  end.

Section Facts.
Context `{Platform}.

(** The row a lookup finds after [update_account]. *)
Lemma lookup_updated (set : Account.t → Account.t) (where_ : Account.t → bool)
    (rows : list Account.t) (username : string) (acc : Account.t) :
  (∀ a, Account.username (set a) = Account.username a) →
  find (fun a => String.eqb (Account.username a) username) rows = Some acc →
  find (fun a => String.eqb (Account.username a) username)
       (map (fun a => if where_ a then set a else a) rows)
  = Some (if where_ acc then set acc else acc).
Proof.
  intros Hset Hfind.
  rewrite (find_map_stable _ (fun a => if where_ a then set a else a)).
  - by rewrite Hfind.
  - intros a. destruct (where_ a); [by rewrite Hset | done].
Qed.

Lemma banned_spec now a :
  banned now a = true ↔ ∃ until, Account.banned_until a = Some until ∧ now < until.
Proof.
  unfold banned. destruct (Account.banned_until a) as [until|].
  - rewrite Z.ltb_lt. split; [by exists until | by intros (? & [= <-] & ?)].
  - split; [done | by intros (? & ? & _)].
Qed.

(** C5 (amended): [world_startup] resets exactly the rows whose
    [logged_in] is the node's id to [logged_in = 0], [login_time = null]
    and leaves every other row as it was; when the node's id is not 0, no
    row has [logged_in] equal to it afterwards. *)
Theorem world_startup_releases rt st msg :
  type msg = world_startup →
  let st' := fst (handle rt st msg) in
  account st' =
    map (fun a => if Account.logged_in a =? nodeId msg
                  then Account.set_logged_in 0 None a else a) (account st)
  ∧ (∀ i a, account st !! i = Some a → Account.logged_in a = nodeId msg →
       account st' !! i = Some (Account.set_logged_in 0 None a))
  ∧ (∀ i a, account st !! i = Some a → Account.logged_in a ≠ nodeId msg →
       account st' !! i = Some a)
  ∧ (nodeId msg ≠ 0 → ∀ a, a ∈ account st' → Account.logged_in a ≠ nodeId msg).
Proof.
  intros Hty. destruct msg as [ty n t p]. simpl in *. subst ty. run.
  split; [done|]. repeat split.
  - intros i a Hi Ha. rewrite list_lookup_fmap, Hi. simpl.
    by rewrite (proj2 (Z.eqb_eq _ _) Ha).
  - intros i a Hi Ha. rewrite list_lookup_fmap, Hi. simpl.
    by rewrite (proj2 (Z.eqb_neq _ _) Ha).
  - intros Hn a Ha. apply list_elem_of_fmap in Ha as (b & -> & _).
    destruct (Z.eqb_spec (Account.logged_in b) n); simpl; congruence.
Qed.

(** C4 (amended): a [player_logout] whose lines 127-136 run to their end
    (the save does not verify and is skipped, or it verifies and is
    written) answers with code 0 only and sets [logged_in = 0],
    [login_time = null] on the account of that username, whether the save
    verifies or not. *)
Theorem logout_releases rt st msg replyTo username save :
  type msg = player_logout replyTo username save →
  write_completes st (profile msg) username save = true →
  ∀ verdict, PlayerLoading_verify (Buffer_from_base64 save) = verdict →
  let (st', replies) := handle rt st msg in
  replies = [Reply.mk replyTo 0 None None None]
  ∧ account st' =
      map (fun a => if String.eqb (Account.username a) username
                    then Account.set_logged_in 0 None a else a) (account st)
  ∧ lookup_account st' username
    = Account.set_logged_in 0 None <$> lookup_account st username
  ∧ (∀ a, a ∈ account st' → Account.username a = username →
       Account.logged_in a = 0 ∧ Account.login_time a = None).
Proof.
  intros Hty Hdone verdict Hv. destruct msg as [ty n t p]. simpl in *. subst ty.
  set (g := fun a => if String.eqb (Account.username a) username
                     then Account.set_logged_in 0 None a else a).
  assert (Hlook : ∀ rows,
    find (fun a => String.eqb (Account.username a) username) (map g rows)
    = Account.set_logged_in 0 None
        <$> find (fun a => String.eqb (Account.username a) username) rows).
  { intros rows. rewrite (find_map_stable _ g).
    - destruct (find _ rows) as [a|] eqn:E; simpl; [|done].
      apply find_some_holds in E. unfold g. by rewrite E.
    - intros a. unfold g.
      by destruct (String.eqb (Account.username a) username) eqn:E. }
  assert (Hall : ∀ rows a, a ∈ map g rows → Account.username a = username →
    Account.logged_in a = 0 ∧ Account.login_time a = None).
  { intros rows a Ha Hu. apply list_elem_of_fmap in Ha as (b & -> & _).
    unfold g in *. destruct (String.eqb (Account.username b) username) eqn:E;
      simpl in *; [done|]. apply String.eqb_neq in E. done. }
  clear Hv. revert Hdone. run.
  file_cases; intros Hw; try discriminate Hw; eauto.
Qed.

(** C7: [player_autosave] sends nothing and leaves both tables alone; the
    one thing it may do to the files is write the verified save at its
    path; it removes no directory and no file, and does nothing at all
    when the save does not verify. *)
Theorem autosave_frame rt st msg username save :
  type msg = player_autosave username save →
  let raw := Buffer_from_base64 save in
  let (st', replies) := handle rt st msg in
  replies = []
  ∧ account st' = account st
  ∧ session st' = session st
  ∧ (files st' = files st
     ∨ PlayerLoading_verify raw = true
       ∧ files st' = <[ save_path (profile msg) username := raw ]> (files st))
  ∧ dirs st ⊆ dirs st'
  ∧ (PlayerLoading_verify raw = false → st' = st).
Proof.
  intros Hty. destruct msg as [ty n t p]. simpl in *. subst ty. run.
  file_cases; repeat split; auto; try done; try set_solver.
Qed.

(** C3 (amended): a login whose credentials verify, on an account banned
    until a time still to come, is answered with code 5 only, whoever owns
    the account, and writes nothing: no Session row in particular. *)
Theorem login_banned rt st msg replyTo username password uid socket remoteAddress acc :
  type msg = player_login replyTo username password uid socket remoteAddress →
  lookup_account st username = Some acc →
  bcrypt_compare (toLowerCase password) (Account.password acc) = true →
  ∀ until, Account.banned_until acc = Some until →
  Date_at_ban_check rt < until →
  handle rt st msg = (st, [Reply.mk replyTo 5 None None None]).
Proof.
  intros Hty Hacc Hpw until Huntil Hlt.
  assert (Hban : banned (Date_at_ban_check rt) acc = true)
    by (apply banned_spec; eauto).
  destruct msg as [ty n t p]. simpl in *. subst ty.
  run. rewrite Hacc. simpl. rewrite andb_false_r. simpl.
  rewrite Hpw. simpl. rewrite Hban. done.
Qed.

(** C6: a login whose credentials verify, on an account that is not
    banned and is owned by another node, is answered with code 3 only; the
    account table is left as it was (the Session row is the one write). *)
Theorem login_elsewhere rt st msg replyTo username password uid socket remoteAddress acc :
  type msg = player_login replyTo username password uid socket remoteAddress →
  lookup_account st username = Some acc →
  bcrypt_compare (toLowerCase password) (Account.password acc) = true →
  banned (Date_at_ban_check rt) acc = false →
  Account.logged_in acc ≠ 0 →
  Account.logged_in acc ≠ nodeId msg →
  let (st', replies) := handle rt st msg in
  replies = [Reply.mk replyTo 3 None None None]
  ∧ account st' = account st
  ∧ lookup_account st' username = Some acc
  ∧ session st' = session st ++ [session_row msg socket uid remoteAddress acc]
  ∧ files st' = files st.
Proof.
  intros Hty Hacc Hpw Hban H0 Hn. destruct msg as [ty n t p]. simpl in *. subst ty.
  run. rewrite Hacc. simpl. rewrite andb_false_r. simpl.
  rewrite Hpw. simpl. rewrite Hban. simpl.
  rewrite (proj2 (Z.eqb_neq _ _) Hn), (proj2 (Z.eqb_neq _ _) H0). simpl.
  by rewrite Hacc.
Qed.

Lemma lookup_claimed rt msg rows username acc :
  find (fun a => String.eqb (Account.username a) username) rows = Some acc →
  find (fun a => String.eqb (Account.username a) username)
       (map (fun a => if Account.id a =? Account.id acc
                      then Account.set_logged_in (nodeId msg)
                             (Some (toDbDate (Date_at_claim rt))) a
                      else a) rows)
  = Some (claimed rt msg acc).
Proof.
  intros Hfind.
  pose proof (lookup_updated
    (Account.set_logged_in (nodeId msg) (Some (toDbDate (Date_at_claim rt))))
    (fun a => Account.id a =? Account.id acc) rows username acc) as Hl.
  rewrite Hl; [|done|done].
  by rewrite Z.eqb_refl.
Qed.

(** C1: what the handler does on a login from the node that already owns
    the account, credentials verified and no ban: after the frame with
    code 2 it runs on through lines 98-121, so that [login_time] is set to
    the time of the login and a second frame (code 4 or 0) follows. *)
Theorem login_reconnect_falls_through rt st msg replyTo username password uid
    socket remoteAddress acc :
  type msg = player_login replyTo username password uid socket remoteAddress →
  lookup_account st username = Some acc →
  bcrypt_compare (toLowerCase password) (Account.password acc) = true →
  banned (Date_at_ban_check rt) acc = false →
  Account.logged_in acc = nodeId msg →
  let (st', replies) := handle rt st msg in
  (∃ rest, replies = Reply.mk replyTo 2 None None None :: rest
     ∧ (exists_in st (save_path (profile msg) username) = false →
          rest = [reply_no_save replyTo acc])
     ∧ (∀ raw, files st !! save_path (profile msg) username = Some raw →
          rest = [reply_save replyTo acc raw]))
  ∧ lookup_account st' username = Some (claimed rt msg acc)
  ∧ Account.login_time (claimed rt msg acc) = Some (toDbDate (Date_at_claim rt)).
Proof.
  intros Hty Hacc Hpw Hban Hn. destruct msg as [ty n t p]. simpl in *. subst ty.
  run. rewrite Hacc. simpl. rewrite andb_false_r. simpl.
  rewrite Hpw. simpl. rewrite Hban. simpl.
  rewrite (proj2 (Z.eqb_eq _ _) Hn). simpl.
  destruct (files st !! save_path p username) as [raw|] eqn:Hfile; simpl;
    rewrite ?Hfile; simpl.
  - split; [|split; [by apply (lookup_claimed rt (Build_Msg _ n t p)) | done]].
    eexists. split; [done|]. split; [done|]. by intros ? [= <-].
  - destruct (bool_decide (save_path p username ∈ dirs st)); simpl;
      rewrite ?Hfile; simpl.
    + split; [|split; [by apply (lookup_claimed rt (Build_Msg _ n t p)) | done]].
      eexists. split; [done|]. split; done.
    + split; [|split; [by apply (lookup_claimed rt (Build_Msg _ n t p)) | done]].
      eexists. split; [done|]. split; done.
Qed.

(** C2 (amended): a login from a node whose id is not 0, credentials
    verified and no ban, on an unowned account, sets [logged_in] to the
    node's id and [login_time] to the time of the login; it answers with
    code 0 and the save when a save file is at the path, with code 4 when
    nothing is at the path, and in no case with code 1, 2, 3 or 5. *)
Theorem login_claims_ownership rt st msg replyTo username password uid
    socket remoteAddress acc :
  type msg = player_login replyTo username password uid socket remoteAddress →
  lookup_account st username = Some acc →
  bcrypt_compare (toLowerCase password) (Account.password acc) = true →
  banned (Date_at_ban_check rt) acc = false →
  Account.logged_in acc = 0 →
  nodeId msg ≠ 0 →
  let (st', replies) := handle rt st msg in
  lookup_account st' username = Some (claimed rt msg acc)
  ∧ Account.logged_in (claimed rt msg acc) = nodeId msg
  ∧ Account.login_time (claimed rt msg acc) = Some (toDbDate (Date_at_claim rt))
  ∧ (∀ raw, files st !! save_path (profile msg) username = Some raw →
       replies = [reply_save replyTo acc raw])
  ∧ (exists_in st (save_path (profile msg) username) = false →
       replies = [reply_no_save replyTo acc])
  ∧ (∀ r, r ∈ replies → Reply.response r = 0 ∨ Reply.response r = 4).
Proof.
  intros Hty Hacc Hpw Hban H0 Hn. destruct msg as [ty n t p]. simpl in *. subst ty.
  run. rewrite Hacc. simpl. rewrite andb_false_r. simpl.
  rewrite Hpw. simpl. rewrite Hban. simpl. rewrite H0.
  rewrite (proj2 (Z.eqb_neq 0 n)) by congruence. simpl.
  pose proof (lookup_claimed rt (Build_Msg (player_login replyTo username password
    uid socket remoteAddress) n t p) _ _ _ Hacc) as Hl. simpl in Hl.
  destruct (files st !! save_path p username) as [raw|] eqn:Hfile; simpl;
    rewrite ?Hfile; simpl.
  - repeat split; try done.
    + by intros ? [= <-].
    + intros r Hr. apply list_elem_of_singleton in Hr as ->. by left.
  - destruct (bool_decide (save_path p username ∈ dirs st)); simpl;
      rewrite ?Hfile; simpl.
    + repeat split; try done. intros r Hr. by apply elem_of_nil in Hr.
    + repeat split; try done.
      intros r Hr. apply list_elem_of_singleton in Hr as ->. by right.
Qed.

(** ** Every path of a login *)

Ltac frames Hin :=
  repeat (apply elem_of_cons in Hin as [-> | Hin]);
  try (by apply elem_of_nil in Hin).



(** What [write_save] leaves in the file tree. *)
Lemma write_files rt st msg username save :
  (∃ replyTo, type msg = player_logout replyTo username save)
  ∨ type msg = player_autosave username save →
  files (fst (handle rt st msg))
  = (if PlayerLoading_verify (Buffer_from_base64 save)
        && write_completes st (profile msg) username save
     then <[ save_path (profile msg) username := Buffer_from_base64 save ]> (files st)
     else files st).
Proof.
  intros Hty. destruct msg as [ty n t p]. simpl in *.
  destruct Hty as [[replyTo ->] | ->]; run; file_cases; done.
Qed.


(** The password enters a login through [toLowerCase] only. *)
Lemma login_password_lowered rt nodeId nodeTime profile replyTo username p q uid
    socket remoteAddress :
  toLowerCase p = toLowerCase q →
  on_player_login rt nodeId nodeTime profile replyTo username p uid socket remoteAddress
  = on_player_login rt nodeId nodeTime profile replyTo username q uid socket remoteAddress.
Proof. intros Hpq. unfold on_player_login. by rewrite Hpq. Qed.

(** C9: with [toLowerCase] idempotent, a login with password [p] and the
    same login with [toLowerCase p] leave the same store and send the same
    frames. *)
Theorem password_case_insensitive rt st nodeId nodeTime profile replyTo username
    p uid socket remoteAddress :
  (∀ s, toLowerCase (toLowerCase s) = toLowerCase s) →
  handle rt st {| type := player_login replyTo username p uid socket remoteAddress;
                  nodeId := nodeId; nodeTime := nodeTime; profile := profile |}
  = handle rt st {| type := player_login replyTo username (toLowerCase p) uid
                              socket remoteAddress;
                    nodeId := nodeId; nodeTime := nodeTime; profile := profile |}.
Proof.
  intros Hidem. unfold handle, on_message. simpl.
  by rewrite (login_password_lowered rt nodeId nodeTime profile replyTo username
                p (toLowerCase p)).
Qed.

(** C10: a login that is answered with code 1 has found no account while
    registration is left to the website, or a password that does not
    verify; it sends that one frame and leaves the whole store (account
    rows, Session rows, save files) as it was. *)
Theorem login_invalid_no_effect rt st msg replyTo username password uid socket
    remoteAddress :
  type msg = player_login replyTo username password uid socket remoteAddress →
  (∃ r, r ∈ snd (handle rt st msg) ∧ Reply.response r = 1) →
  handle rt st msg = (st, [Reply.mk replyTo 1 None None None])
  ∧ (lookup_account st username = None ∧ WEBSITE_REGISTRATION = true
     ∨ ∃ acc, lookup_account st username = Some acc
              ∧ bcrypt_compare (toLowerCase password) (Account.password acc) = false).
Proof.
  intros Hty. destruct msg as [ty n t p]. simpl in *. subst ty. run.
  destruct (find _ (account st)) as [acc|] eqn:Hacc; simpl.
  2:{ destruct WEBSITE_REGISTRATION; simpl; intros (r & Hin & Hr); frames Hin;
        try done. split; [done | by left]. }
  rewrite andb_false_r. simpl.
  destruct (bcrypt_compare _ _) eqn:Hpw; simpl.
  2:{ intros _. split; [done|]. right. by exists acc. }
  destruct (banned _ acc); simpl; [intros (r & Hin & Hr); frames Hin; done|].
  destruct (Account.logged_in acc =? n); simpl.
  - destruct (files st !! save_path p username) as [raw|] eqn:Hfile; simpl;
      rewrite ?Hfile; simpl.
    + intros (r & Hin & Hr); frames Hin; done.
    + destruct (bool_decide _); simpl; rewrite ?Hfile; simpl;
        intros (r & Hin & Hr); frames Hin; done.
  - destruct (Account.logged_in acc =? 0); simpl;
      [|intros (r & Hin & Hr); frames Hin; done].
    destruct (files st !! save_path p username) as [raw|] eqn:Hfile; simpl;
      rewrite ?Hfile; simpl.
    + intros (r & Hin & Hr); frames Hin; done.
    + destruct (bool_decide _); simpl; rewrite ?Hfile; simpl;
        intros (r & Hin & Hr); frames Hin; done.
Qed.

End Facts.

(** ** The handler on the sample platform *)

Lemma lower_ascii_idempotent (c : ascii) :
  Sample.lower_ascii (Sample.lower_ascii c) = Sample.lower_ascii c.
Proof. by destruct c as [[] [] [] [] [] [] [] []]. Qed.

Lemma lower_idempotent (s : string) : Sample.lower (Sample.lower s) = Sample.lower s.
Proof.
  induction s as [|c s IH]; simpl; [done|].
  by rewrite lower_ascii_idempotent, IH.
Qed.

(** Reconnect of bob from node 7, which owns him since time 1000: two
    frames leave, and [login_time] moves to the time of this login. *)
Example reconnect_bob :
  let (st', replies) :=
    handle (H := Sample.platform true) Sample.rt0 Sample.st0
           (Sample.login 7 "bob" "Hunter2") in
  replies = [Reply.mk 41 2 None None None;
             Reply.mk 41 4 (Some 0) None (Some None)]
  ∧ Account.login_time <$> lookup_account Sample.st0 "bob" = Some (Some 1000)
  ∧ Account.login_time <$> lookup_account st' "bob" = Some (Some 5000).
Proof. vm_compute. done. Qed.

Lemma login_reconnect_falls_through_witness :
  let P := Sample.platform true in
  let msg := Sample.login 7 "bob" "Hunter2" in
  type msg = player_login 41 "bob" "Hunter2" 99 "sock" "10.0.0.1"
  ∧ lookup_account Sample.st0 "bob" = Some Sample.bob
  ∧ bcrypt_compare (toLowerCase "Hunter2") (Account.password Sample.bob) = true
  ∧ banned (Date_at_ban_check Sample.rt0) Sample.bob = false
  ∧ Account.logged_in Sample.bob = nodeId msg
  ∧ let (st', replies) := handle Sample.rt0 Sample.st0 msg in
    (∃ rest, replies = Reply.mk 41 2 None None None :: rest
       ∧ (exists_in Sample.st0 (save_path (profile msg) "bob") = false →
            rest = [reply_no_save 41 Sample.bob])
       ∧ (∀ raw, files Sample.st0 !! save_path (profile msg) "bob" = Some raw →
            rest = [reply_save 41 Sample.bob raw]))
    ∧ lookup_account st' "bob" = Some (claimed Sample.rt0 msg Sample.bob)
    ∧ Account.login_time (claimed Sample.rt0 msg Sample.bob)
      = Some (toDbDate (Date_at_claim Sample.rt0)).
Proof.
  intros P msg. do 5 (split; [reflexivity|]).
  apply (login_reconnect_falls_through (H := P) Sample.rt0 Sample.st0 msg
           41 "bob" "Hunter2" 99 "sock" "10.0.0.1" Sample.bob); reflexivity.
Defined.

(** C2 as stated fails for a node whose id is 0: the test of line 82
    holds on an unowned account, and the frame with code 2 is sent. *)
Lemma login_node_zero_sends_code_2 :
  let P := Sample.platform true in
  let msg := Sample.login 0 "carol" "secret" in
  lookup_account Sample.st0 "carol" = Some Sample.carol
  ∧ bcrypt_compare (toLowerCase "secret") (Account.password Sample.carol) = true
  ∧ banned (Date_at_ban_check Sample.rt0) Sample.carol = false
  ∧ Account.logged_in Sample.carol = 0
  ∧ snd (handle Sample.rt0 Sample.st0 msg)
    = [Reply.mk 41 2 None None None;
       Reply.mk 41 0 (Some 1) (Some (string_of_list_byte [x20; x04; x01]))
                (Some None)]
  ∧ ¬ (∀ r, r ∈ snd (handle Sample.rt0 Sample.st0 msg) →
         Reply.response r ≠ 2).
Proof.
  intros P msg. do 5 (split; [reflexivity|]).
  intros Hall. apply (Hall (Reply.mk 41 2 None None None)); [|reflexivity].
  vm_compute. apply list_elem_of_here.
Qed.

Lemma login_claims_ownership_witness :
  let P := Sample.platform true in
  let msg := Sample.login 9 "carol" "SECRET" in
  type msg = player_login 41 "carol" "SECRET" 99 "sock" "10.0.0.1"
  ∧ lookup_account Sample.st0 "carol" = Some Sample.carol
  ∧ bcrypt_compare (toLowerCase "SECRET") (Account.password Sample.carol) = true
  ∧ banned (Date_at_ban_check Sample.rt0) Sample.carol = false
  ∧ Account.logged_in Sample.carol = 0
  ∧ nodeId msg ≠ 0
  ∧ let (st', replies) := handle Sample.rt0 Sample.st0 msg in
    lookup_account st' "carol" = Some (claimed Sample.rt0 msg Sample.carol)
    ∧ Account.logged_in (claimed Sample.rt0 msg Sample.carol) = nodeId msg
    ∧ Account.login_time (claimed Sample.rt0 msg Sample.carol)
      = Some (toDbDate (Date_at_claim Sample.rt0))
    ∧ (∀ raw, files Sample.st0 !! save_path (profile msg) "carol" = Some raw →
         replies = [reply_save 41 Sample.carol raw])
    ∧ (exists_in Sample.st0 (save_path (profile msg) "carol") = false →
         replies = [reply_no_save 41 Sample.carol])
    ∧ (∀ r, r ∈ replies → Reply.response r = 0 ∨ Reply.response r = 4).
Proof.
  intros P msg. do 5 (split; [reflexivity|]). split; [simpl; lia|].
  apply (login_claims_ownership (H := P) Sample.rt0 Sample.st0 msg
           41 "carol" "SECRET" 99 "sock" "10.0.0.1" Sample.carol);
    try reflexivity.
  simpl. lia.
Defined.

(** C3 as stated fails when the password does not verify: the test of
    line 54 comes before the ban test, and the answer is code 1. *)
Lemma banned_login_wrong_password :
  let P := Sample.platform true in
  let msg := Sample.login 9 "dave" "wrong" in
  lookup_account Sample.st0 "dave" = Some Sample.dave
  ∧ Account.banned_until Sample.dave = Some 900000
  ∧ (Date_at_ban_check Sample.rt0 < 900000)
  ∧ handle Sample.rt0 Sample.st0 msg
    = (Sample.st0, [Reply.mk 41 1 None None None])
  ∧ ¬ (∃ r, r ∈ snd (handle Sample.rt0 Sample.st0 msg) ∧ Reply.response r = 5).
Proof.
  intros P msg. do 2 (split; [reflexivity|]). split; [simpl; lia|].
  split; [reflexivity|].
  intros (r & Hin & Hr). change (r ∈ [Reply.mk 41 1 None None None]) in Hin.
  apply list_elem_of_singleton in Hin. subst r. discriminate Hr.
Qed.

Lemma login_banned_witness :
  let P := Sample.platform true in
  let msg := Sample.login 9 "dave" "LetMeIn" in
  type msg = player_login 41 "dave" "LetMeIn" 99 "sock" "10.0.0.1"
  ∧ lookup_account Sample.st0 "dave" = Some Sample.dave
  ∧ bcrypt_compare (toLowerCase "LetMeIn") (Account.password Sample.dave) = true
  ∧ Account.banned_until Sample.dave = Some 900000
  ∧ Date_at_ban_check Sample.rt0 < 900000
  ∧ handle Sample.rt0 Sample.st0 msg
    = (Sample.st0, [Reply.mk 41 5 None None None]).
Proof.
  intros P msg. do 4 (split; [reflexivity|]). split; [simpl; lia|].
  apply (login_banned (H := P) Sample.rt0 Sample.st0 msg
           41 "dave" "LetMeIn" 99 "sock" "10.0.0.1" Sample.dave
           eq_refl eq_refl eq_refl 900000 eq_refl).
  simpl. lia.
Defined.

(** C4 as stated fails when the write of the verified save throws: the
    save of "a/b" goes under a directory that is not there, and the
    handler ends in the [catch] before the release and the answer. *)
Lemma logout_write_rejected :
  let P := Sample.platform true in
  let ab := Account.mk 5 "a/b" "salt$pw" 7 (Some 1000) None None 0 in
  let st := {| account := [ab]; session := []; files := ∅;
               dirs := {[ "data"; "data/players"; "data/players/main" ]} |} in
  let msg := {| type := player_logout 42 "a/b" (string_of_list_byte [x20; x04; x07]);
                nodeId := 7; nodeTime := 6000; profile := "main" |} in
  PlayerLoading_verify (Buffer_from_base64 (string_of_list_byte [x20; x04; x07])) = true
  ∧ exists_in st (profile_dir "main") = true
  ∧ exists_in st (dirname (save_path "main" "a/b")) = false
  ∧ snd (handle Sample.rt0 st msg) = []
  ∧ lookup_account (fst (handle Sample.rt0 st msg)) "a/b" = Some ab
  ∧ Account.logged_in ab = 7
  ∧ ¬ (snd (handle Sample.rt0 st msg) = [Reply.mk 42 0 None None None]
       ∧ Account.logged_in <$> lookup_account (fst (handle Sample.rt0 st msg)) "a/b"
         = Some 0).
Proof.
  intros P ab st msg. do 3 (split; [by vm_compute|]).
  assert (Hsent : snd (handle Sample.rt0 st msg) = []) by (by vm_compute).
  split; [exact Hsent|]. split; [by vm_compute|]. split; [reflexivity|].
  intros [Hreply _]. rewrite Hsent in Hreply. discriminate Hreply.
Qed.

Lemma logout_releases_witness :
  let P := Sample.platform true in
  let save := string_of_list_byte [x20; x04; x07] in
  let good := {| type := player_logout 42 "bob" save;
                 nodeId := 7; nodeTime := 6000; profile := "main" |} in
  let bad := {| type := player_logout 43 "bob" "garbage";
                nodeId := 7; nodeTime := 6000; profile := "main" |} in
  (type good = player_logout 42 "bob" save
   ∧ write_completes Sample.st0 (profile good) "bob" save = true
   ∧ PlayerLoading_verify (Buffer_from_base64 save) = true
   ∧ let (st', replies) := handle Sample.rt0 Sample.st0 good in
     replies = [Reply.mk 42 0 None None None]
     ∧ account st' =
         map (fun a => if String.eqb (Account.username a) "bob"
                       then Account.set_logged_in 0 None a else a)
             (account Sample.st0)
     ∧ lookup_account st' "bob"
       = Account.set_logged_in 0 None <$> lookup_account Sample.st0 "bob"
     ∧ (∀ a, a ∈ account st' → Account.username a = "bob"%string →
          Account.logged_in a = 0 ∧ Account.login_time a = None))
  ∧ (type bad = player_logout 43 "bob" "garbage"
     ∧ write_completes Sample.st0 (profile bad) "bob" "garbage" = true
     ∧ PlayerLoading_verify (Buffer_from_base64 "garbage") = false
     ∧ let (st', replies) := handle Sample.rt0 Sample.st0 bad in
       replies = [Reply.mk 43 0 None None None]
       ∧ account st' =
           map (fun a => if String.eqb (Account.username a) "bob"
                         then Account.set_logged_in 0 None a else a)
               (account Sample.st0)
       ∧ lookup_account st' "bob"
         = Account.set_logged_in 0 None <$> lookup_account Sample.st0 "bob"
       ∧ (∀ a, a ∈ account st' → Account.username a = "bob"%string →
            Account.logged_in a = 0 ∧ Account.login_time a = None)).
Proof.
  intros P save good bad.
  assert (Hgood : write_completes Sample.st0 (profile good) "bob" save = true)
    by (by vm_compute).
  assert (Hbad : write_completes Sample.st0 (profile bad) "bob" "garbage" = true)
    by (by vm_compute).
  split; (split; [reflexivity|]).
  - split; [exact Hgood|]. split; [reflexivity|].
    apply (logout_releases (H := P) Sample.rt0 Sample.st0 good 42 "bob" save
             eq_refl Hgood true); reflexivity.
  - split; [exact Hbad|]. split; [reflexivity|].
    apply (logout_releases (H := P) Sample.rt0 Sample.st0 bad 43 "bob" "garbage"
             eq_refl Hbad false); reflexivity.
Defined.

(** C5 as stated fails for a node whose id is 0: the rows it resets are
    the unowned ones, whose [logged_in] is 0 before and after. *)
Lemma world_startup_node_zero :
  let P := Sample.platform true in
  let msg := {| type := world_startup; nodeId := 0; nodeTime := 6000;
                profile := "main" |} in
  Sample.carol ∈ account (fst (handle Sample.rt0 Sample.st0 msg))
  ∧ Account.logged_in Sample.carol = nodeId msg
  ∧ ¬ (∀ a, a ∈ account (fst (handle Sample.rt0 Sample.st0 msg)) →
         Account.logged_in a ≠ nodeId msg).
Proof.
  intros P msg.
  assert (Hin : Sample.carol ∈ account (fst (handle Sample.rt0 Sample.st0 msg))).
  { vm_compute. apply list_elem_of_further, list_elem_of_here. }
  split; [done|]. split; [reflexivity|].
  intros Hall. by apply (Hall Sample.carol Hin).
Qed.

Lemma world_startup_releases_witness :
  let P := Sample.platform true in
  let msg := {| type := world_startup; nodeId := 7; nodeTime := 6000;
                profile := "main" |} in
  type msg = world_startup
  ∧ let st' := fst (handle Sample.rt0 Sample.st0 msg) in
    account st' =
      map (fun a => if Account.logged_in a =? nodeId msg
                    then Account.set_logged_in 0 None a else a)
          (account Sample.st0)
    ∧ (∀ i a, account Sample.st0 !! i = Some a → Account.logged_in a = nodeId msg →
         account st' !! i = Some (Account.set_logged_in 0 None a))
    ∧ (∀ i a, account Sample.st0 !! i = Some a → Account.logged_in a ≠ nodeId msg →
         account st' !! i = Some a)
    ∧ (nodeId msg ≠ 0 → ∀ a, a ∈ account st' → Account.logged_in a ≠ nodeId msg).
Proof.
  intros P msg. split; [reflexivity|].
  apply (world_startup_releases (H := P) Sample.rt0 Sample.st0 msg eq_refl).
Defined.

Lemma login_elsewhere_witness :
  let P := Sample.platform true in
  let msg := Sample.login 9 "bob" "hunter2" in
  type msg = player_login 41 "bob" "hunter2" 99 "sock" "10.0.0.1"
  ∧ lookup_account Sample.st0 "bob" = Some Sample.bob
  ∧ bcrypt_compare (toLowerCase "hunter2") (Account.password Sample.bob) = true
  ∧ banned (Date_at_ban_check Sample.rt0) Sample.bob = false
  ∧ Account.logged_in Sample.bob ≠ 0
  ∧ Account.logged_in Sample.bob ≠ nodeId msg
  ∧ let (st', replies) := handle Sample.rt0 Sample.st0 msg in
    replies = [Reply.mk 41 3 None None None]
    ∧ account st' = account Sample.st0
    ∧ lookup_account st' "bob" = Some Sample.bob
    ∧ session st' = session Sample.st0
                    ++ [session_row msg "sock" 99 "10.0.0.1" Sample.bob]
    ∧ files st' = files Sample.st0.
Proof.
  intros P msg. do 4 (split; [reflexivity|]).
  split; [simpl; lia|]. split; [simpl; lia|].
  apply (login_elsewhere (H := P) Sample.rt0 Sample.st0 msg
           41 "bob" "hunter2" 99 "sock" "10.0.0.1" Sample.bob);
    try reflexivity; simpl; lia.
Defined.

Lemma autosave_frame_witness :
  let P := Sample.platform true in
  let save := string_of_list_byte [x20; x04; x07] in
  let msg := {| type := player_autosave "bob" save;
                nodeId := 7; nodeTime := 6000; profile := "main" |} in
  type msg = player_autosave "bob" save
  ∧ let raw := Buffer_from_base64 save in
    let (st', replies) := handle Sample.rt0 Sample.st0 msg in
    replies = []
    ∧ account st' = account Sample.st0
    ∧ session st' = session Sample.st0
    ∧ (files st' = files Sample.st0
       ∨ PlayerLoading_verify raw = true
         ∧ files st' = <[ save_path (profile msg) "bob" := raw ]> (files Sample.st0))
    ∧ dirs Sample.st0 ⊆ dirs st'
    ∧ (PlayerLoading_verify raw = false → st' = Sample.st0).
Proof.
  intros P save msg. split; [reflexivity|].
  apply (autosave_frame (H := P) Sample.rt0 Sample.st0 msg "bob" save eq_refl).
Defined.

(** Logout of carol with a save that verifies, then her login on node 9:
    the frame with code 0 carries the bytes that were written. *)
Example round_trip_carol :
  let P := Sample.platform true in
  let raw := [x20; x04; x07; x08] in
  let logout := {| type := player_logout 42 "carol" (string_of_list_byte raw);
                   nodeId := 7; nodeTime := 6000; profile := "main" |} in
  let st1 := fst (handle Sample.rt0 Sample.st0 logout) in
  files st1 !! save_path "main" "carol" = Some raw
  ∧ snd (handle Sample.rt0 st1 (Sample.login 9 "carol" "secret"))
    = [Reply.mk 41 0 (Some 1) (Some (string_of_list_byte raw)) (Some None)].
Proof. vm_compute. done. Qed.

(** Logout of carol with a save that does not verify: her stored save
    stays, she is released, and the answer is code 0. *)
Example logout_corrupted_carol :
  let P := Sample.platform true in
  let logout := {| type := player_logout 42 "carol" "garbage";
                   nodeId := 7; nodeTime := 6000; profile := "main" |} in
  let (st1, replies) := handle Sample.rt0 Sample.st0 logout in
  files st1 !! save_path "main" "carol" = Some [x20; x04; x01]
  ∧ Account.logged_in <$> lookup_account st1 "carol" = Some 0
  ∧ replies = [Reply.mk 42 0 None None None].
Proof. vm_compute. done. Qed.


Lemma password_case_insensitive_witness :
  let P := Sample.platform false in
  (∀ s, toLowerCase (toLowerCase s) = toLowerCase s)
  ∧ handle Sample.rt0 Sample.st0 (Sample.login 9 "erin" "PassWord")
    = handle Sample.rt0 Sample.st0 (Sample.login 9 "erin" (toLowerCase "PassWord")).
Proof.
  intros P. split; [exact lower_idempotent|].
  apply (password_case_insensitive (H := P) Sample.rt0 Sample.st0 9 4000 "main"
           41 "erin" "PassWord" 99 "sock" "10.0.0.1" lower_idempotent).
Defined.

Lemma login_invalid_no_effect_witness :
  let P := Sample.platform true in
  let msg := Sample.login 9 "carol" "guess" in
  type msg = player_login 41 "carol" "guess" 99 "sock" "10.0.0.1"
  ∧ (∃ r, r ∈ snd (handle Sample.rt0 Sample.st0 msg) ∧ Reply.response r = 1)
  ∧ handle Sample.rt0 Sample.st0 msg
    = (Sample.st0, [Reply.mk 41 1 None None None])
  ∧ (lookup_account Sample.st0 "carol" = None ∧ WEBSITE_REGISTRATION = true
     ∨ ∃ acc, lookup_account Sample.st0 "carol" = Some acc
              ∧ bcrypt_compare (toLowerCase "guess") (Account.password acc) = false).
Proof.
  intros P msg.
  assert (Hone : ∃ r, r ∈ snd (handle Sample.rt0 Sample.st0 msg)
                      ∧ Reply.response r = 1).
  { exists (Reply.mk 41 1 None None None). split; [|reflexivity].
    vm_compute. apply list_elem_of_here. }
  split; [reflexivity|]. split; [exact Hone|].
  apply (login_invalid_no_effect (H := P) Sample.rt0 Sample.st0 msg
           41 "carol" "guess" 99 "sock" "10.0.0.1" eq_refl Hone).
Defined.

(** * Further properties: every branch of the handler *)

(** ** More on lists of rows *)

Lemma find_none_all {A} (p : A → bool) (l : list A) :
  find p l = None → ∀ a, a ∈ l → p a = false.
Proof.
  intros Hf a Ha. apply list_elem_of_In in Ha. by apply (find_none p l Hf).
Qed.

Lemma find_snoc_fresh {A} (p : A → bool) (l : list A) (x : A) :
  find p l = None → p x = true → find p (l ++ [x]) = Some x.
Proof.
  induction l as [|a l IH]; simpl; intros Hf Hx; [by rewrite Hx|].
  destruct (p a); [done | by apply IH].
Qed.

Lemma identity_username (g : Account.t → Account.t) :
  (∀ a, identity (g a) = identity a) →
  ∀ l, map Account.username (map g l) = map Account.username l.
Proof.
  intros Hg l. induction l as [|a l IH]; simpl; [done|].
  rewrite IH. f_equal. specialize (Hg a). unfold identity in Hg. congruence.
Qed.

Lemma identity_map (g : Account.t → Account.t) :
  (∀ a, identity (g a) = identity a) →
  ∀ l, map identity (map g l) = map identity l.
Proof.
  intros Hg l. induction l as [|a l IH]; simpl; [done|]. by rewrite IH, Hg.
Qed.

Section Branches.
Context `{Platform}.

(** The decision points of a login, one after the other. *)
Ltac paths :=
  repeat match goal with
  | Hf : files ?st !! ?p = _ |- context [files ?st !! ?p] => rewrite Hf; simpl
  | |- context [find ?p (account ?st)] =>
      destruct (find p (account st)) as [?acc|] eqn:?Hacc; simpl
  | |- context [WEBSITE_REGISTRATION] =>
      destruct WEBSITE_REGISTRATION eqn:?Hweb; simpl
  | |- context [bcrypt_compare ?a ?b] =>
      destruct (bcrypt_compare a b) eqn:?Hpw; simpl
  | |- context [banned ?n ?a] => destruct (banned n a) eqn:?Hban; simpl
  | |- context [Account.logged_in ?a =? ?n] =>
      destruct (Z.eqb_spec (Account.logged_in a) n); simpl
  | |- context [PlayerLoading_verify ?r] =>
      destruct (PlayerLoading_verify r) eqn:?Hver; simpl
  | |- context [files ?st !! ?p] => destruct (files st !! p) eqn:?Hfile; simpl
  | |- context [in_the_way ?s ?q] => destruct (in_the_way s q) eqn:?Hway; simpl
  | |- context [bool_decide ?P] => destruct (bool_decide P) eqn:?Hdir; simpl
  end.

Ltac members Hin :=
  repeat (apply elem_of_cons in Hin as [-> | Hin]);
  try (by apply elem_of_nil in Hin).

(** The account table after any message: the rows of before, each with
    its identity columns, or these rows and one new row of a username
    that no row had. *)
Lemma accounts_after rt st msg :
  (∃ g, (∀ a, identity (g a) = identity a)
        ∧ account (fst (handle rt st msg)) = map g (account st))
  ∨ (∃ row, account (fst (handle rt st msg)) = account st ++ [row]
            ∧ find (fun a => String.eqb (Account.username a) (Account.username row))
                   (account st) = None).
Proof.
  destruct msg as [ty n t p]. destruct ty; run; paths;
    first [ by (left; exists id; split; [done | by rewrite list_fmap_id])
          | by (right; eexists; split; [reflexivity | done])
          | (left; eexists; split; [|reflexivity]; intros a; simpl;
             match goal with |- context [if ?c then _ else _] => by destruct c end) ].
Qed.

(** The file tree after any message. *)
Lemma files_after rt st msg :
  files (fst (handle rt st msg)) = files st
  ∨ ∃ username save,
      ((∃ replyTo, type msg = player_logout replyTo username save)
       ∨ type msg = player_autosave username save)
      ∧ PlayerLoading_verify (Buffer_from_base64 save) = true
      ∧ files (fst (handle rt st msg))
        = <[ save_path (profile msg) username := Buffer_from_base64 save ]> (files st).
Proof.
  destruct msg as [ty n t p]. destruct ty; run; paths; try (by left);
    right; eexists _, _; (split; [|split; [eassumption | reflexivity]]); eauto.
Qed.

(** X1: a message handled with no other handler running in between
    keeps usernames unique: if no two accounts share a username before
    it, none do after it. *)
Theorem usernames_stay_unique rt st msg :
  usernames_unique st → usernames_unique (fst (handle rt st msg)).
Proof.
  unfold usernames_unique. intros Hnd.
  destruct (accounts_after rt st msg) as [(g & Hg & ->) | (row & -> & Hnone)].
  - by rewrite identity_username.
  - rewrite map_app. simpl. apply NoDup_app. split; [done|]. split.
    + intros u Hu Hrow. apply list_elem_of_singleton in Hrow. subst u.
      apply list_elem_of_fmap in Hu as (a & Heq & Ha).
      pose proof (find_none_all _ _ Hnone a Ha) as Hne. simpl in Hne.
      apply String.eqb_neq in Hne. congruence.
    + apply NoDup_singleton.
Qed.

(** X2: no message removes an account row or alters the id, username,
    password or staff level of one: these columns of the table afterwards
    are those of before, followed by at most one new row. *)
Theorem identity_columns_kept rt st msg :
  ∃ new, map identity (account (fst (handle rt st msg)))
         = map identity (account st) ++ new
         ∧ (length new ≤ 1)%nat.
Proof.
  destruct (accounts_after rt st msg) as [(g & Hg & ->) | (row & -> & _)].
  - exists []. rewrite identity_map by done. by rewrite app_nil_r; simpl; split; [|lia].
  - exists [identity row]. by rewrite map_app.
Qed.

(** X3: files change only by a [player_logout] or [player_autosave] whose
    save verifies, which writes that save at its path; no message removes
    a file, and every other message leaves the tree as it was. *)
Theorem files_written_only_verified rt st msg :
  (∀ path, is_Some (files st !! path) →
           is_Some (files (fst (handle rt st msg)) !! path))
  ∧ (files (fst (handle rt st msg)) ≠ files st →
       ∃ username save,
         ((∃ replyTo, type msg = player_logout replyTo username save)
          ∨ type msg = player_autosave username save)
         ∧ PlayerLoading_verify (Buffer_from_base64 save) = true
         ∧ files (fst (handle rt st msg))
           = <[ save_path (profile msg) username := Buffer_from_base64 save ]>
               (files st)).
Proof.
  destruct (files_after rt st msg) as [Heq | (u & s & Hty & Hv & Heq)].
  - rewrite Heq. split; [done|]. by intros [].
  - split; [|intros _; by exists u, s].
    intros path Hsome. rewrite Heq.
    destruct (decide (save_path (profile msg) u = path)) as [<- | Hne].
    + rewrite lookup_insert_eq. by eexists.
    + by rewrite lookup_insert_ne.
Qed.

(** X4: if every stored file passes [PlayerLoading.verify] before a
    message, every stored file passes it afterwards. *)
Theorem saves_stay_verified rt st msg :
  saves_verified st → saves_verified (fst (handle rt st msg)).
Proof.
  unfold saves_verified. intros Hall path raw.
  destruct (files_after rt st msg) as [-> | (u & s & _ & Hv & ->)]; [apply Hall|].
  destruct (decide (save_path (profile msg) u = path)) as [<- | Hne].
  - rewrite lookup_insert_eq. by intros [= <-].
  - rewrite lookup_insert_ne by done. apply Hall.
Qed.

(** ** The login of an unowned account, in full *)

Lemma login_unowned rt st msg replyTo username password uid socket remoteAddress acc :
  type msg = player_login replyTo username password uid socket remoteAddress →
  lookup_account st username = Some acc →
  bcrypt_compare (toLowerCase password) (Account.password acc) = true →
  banned (Date_at_ban_check rt) acc = false →
  Account.logged_in acc = 0 →
  nodeId msg ≠ 0 →
  handle rt st msg =
  ({| account :=
        map (fun a => if Account.id a =? Account.id acc
                      then Account.set_logged_in (nodeId msg)
                             (Some (toDbDate (Date_at_claim rt))) a
                      else a) (account st);
      session := session st ++ [session_row msg socket uid remoteAddress acc];
      files := files st;
      dirs := dirs st |},
   match files st !! save_path (profile msg) username with
   | Some raw => [reply_save replyTo acc raw]
   | None => if bool_decide (save_path (profile msg) username ∈ dirs st)
             then [] else [reply_no_save replyTo acc]
   end).
Proof.
  intros Hty Hacc Hpw Hban H0 Hn. destruct msg as [ty n t p]. simpl in *. subst ty.
  run. rewrite Hacc. simpl. rewrite andb_false_r. simpl.
  rewrite Hpw. simpl. rewrite Hban. simpl. rewrite H0.
  rewrite (proj2 (Z.eqb_neq 0 n)) by congruence. simpl.
  destruct (files st !! save_path p username) as [raw|] eqn:Hfile; simpl;
    rewrite ?Hfile; simpl; [done|].
  destruct (bool_decide (save_path p username ∈ dirs st)); simpl;
    rewrite ?Hfile; simpl; done.
Qed.

(** The account table after a [player_logout] that runs to its end. *)
Lemma release_accounts rt st msg replyTo username save :
  type msg = player_logout replyTo username save →
  write_completes st (profile msg) username save = true →
  account (fst (handle rt st msg))
  = map (fun a => if String.eqb (Account.username a) username
                  then Account.set_logged_in 0 None a else a) (account st).
Proof.
  intros Hty. destruct msg as [ty n t p]. simpl in *. subst ty.
  run. paths; intros Hw; try discriminate Hw; done.
Qed.

(** ** Registration on first login, lines 38-52 *)

(** X5: with registration left to the handler and no account of that
    username, a login adds one row with the username and the hash of the
    lower-cased password, and answers with code 4 and staff level 0 only;
    it writes no Session row and no file, and the new row is the one a
    lookup of the username finds. *)
Theorem login_registers rt st msg replyTo username password uid socket remoteAddress :
  type msg = player_login replyTo username password uid socket remoteAddress →
  WEBSITE_REGISTRATION = false →
  lookup_account st username = None →
  let (st', replies) := handle rt st msg in
  replies = [Reply.mk replyTo 4 (Some 0) None None]
  ∧ (∃ row, account st' = account st ++ [row]
            ∧ Account.username row = username
            ∧ Account.password row
              = bcrypt_hashSync (toLowerCase password) 10 (bcrypt_salt rt)
            ∧ lookup_account st' username = Some row)
  ∧ session st' = session st
  ∧ files st' = files st.
Proof.
  intros Hty Hweb Hacc. destruct msg as [ty n t p]. simpl in *. subst ty.
  run. rewrite Hacc, Hweb. simpl. split; [done|]. split; [|done].
  eexists. split; [reflexivity|]. split; [done|]. split; [done|].
  apply find_snoc_fresh; [done|]. simpl. apply String.eqb_refl.
Qed.

(** X6: the registering login does not take the account for its node: a
    login that follows it, from any node whose id is not 0, with a
    password equal up to case, is let through, given that [bcrypt.compare]
    accepts the hash [bcrypt.hashSync] made. *)
Theorem register_then_login rt st msg replyTo username password uid socket remoteAddress
    rt2 msg2 replyTo2 password2 uid2 socket2 remoteAddress2 :
  type msg = player_login replyTo username password uid socket remoteAddress →
  WEBSITE_REGISTRATION = false →
  lookup_account st username = None →
  type msg2 = player_login replyTo2 username password2 uid2 socket2 remoteAddress2 →
  toLowerCase password2 = toLowerCase password →
  bcrypt_compare (toLowerCase password)
    (bcrypt_hashSync (toLowerCase password) 10 (bcrypt_salt rt)) = true →
  nodeId msg2 ≠ 0 →
  let st1 := fst (handle rt st msg) in
  let (st2, replies) := handle rt2 st1 msg2 in
  Account.logged_in <$> lookup_account st1 username = Some 0
  ∧ Account.logged_in <$> lookup_account st2 username = Some (nodeId msg2)
  ∧ length (session st2) = S (length (session st))
  ∧ (∀ r, r ∈ replies → Reply.response r = 0 ∨ Reply.response r = 4).
Proof.
  intros Hty Hweb Hacc Hty2 Hlow Hhash Hn st1.
  set (row := Account.mk (next_id (account st)) username
                (bcrypt_hashSync (toLowerCase password) 10 (bcrypt_salt rt))
                0 None None None 0).
  assert (Hst1 : st1 = {| account := account st ++ [row]; session := session st;
                          files := files st; dirs := dirs st |}).
  { subst st1. destruct msg as [ty n t p]. simpl in *. subst ty.
    run. by rewrite Hacc, Hweb. }
  assert (Hrow : lookup_account st1 username = Some row).
  { rewrite Hst1. unfold lookup_account. simpl.
    apply find_snoc_fresh; [done|]. simpl. apply String.eqb_refl. }
  rewrite (login_unowned rt2 st1 msg2 replyTo2 username password2 uid2 socket2
             remoteAddress2 row Hty2 Hrow); [|by rewrite Hlow|done|done|done].
  split; [by rewrite Hrow|]. split; [|split].
  - unfold lookup_account at 1. simpl.
    unfold lookup_account in Hrow.
    rewrite (lookup_claimed rt2 msg2 (account st1) username row Hrow). done.
  - simpl. rewrite Hst1. simpl. rewrite length_app. simpl. lia.
  - intros r Hr. destruct (files st1 !! save_path (profile msg2) username).
    + apply list_elem_of_singleton in Hr as ->. by left.
    + destruct (bool_decide _); [by apply elem_of_nil in Hr|].
      apply list_elem_of_singleton in Hr as ->. by right.
Qed.

(** ** The session log, lines 72-80 *)

(** X7: the session table only grows, by at most one row a message: a
    row is added exactly by a [player_login] whose account exists, whose
    password verifies and which is not banned, whatever the ownership
    test then decides, and it records the socket, the account id, the
    profile, the node, [toDbDate(nodeTime)], the uid and the address. *)
Theorem session_log rt st msg :
  session (fst (handle rt st msg)) =
  session st ++
    match type msg with
    | player_login _ username password uid socket remoteAddress =>
        match lookup_account st username with
        | Some acc =>
            if bcrypt_compare (toLowerCase password) (Account.password acc)
               && negb (banned (Date_at_ban_check rt) acc)
            then [session_row msg socket uid remoteAddress acc]
            else []
        | None => []
        end
    | _ => []
    end.
Proof.
  destruct msg as [ty n t p]. destruct ty; run; paths; by rewrite ?app_nil_r.
Qed.

(** ** Rows released by username *)

(** What lines 138-141 and 163-166 leave of the table. *)
Lemma lookup_released (rows : list Account.t) (username : string) :
  find (fun a => String.eqb (Account.username a) username)
       (map (fun a => if String.eqb (Account.username a) username
                      then Account.set_logged_in 0 None a else a) rows)
  = Account.set_logged_in 0 None
      <$> find (fun a => String.eqb (Account.username a) username) rows.
Proof.
  rewrite (find_map_stable _ (fun a => if String.eqb (Account.username a) username
                                       then Account.set_logged_in 0 None a else a)).
  - destruct (find _ rows) as [a|] eqn:E; simpl; [|done].
    apply find_some_holds in E. by rewrite E.
  - intros a. by destruct (String.eqb (Account.username a) username) eqn:E.
Qed.

Lemma released_rows (rows : list Account.t) (username : string) (a : Account.t) :
  a ∈ map (fun a => if String.eqb (Account.username a) username
                    then Account.set_logged_in 0 None a else a) rows →
  Account.username a = username →
  Account.logged_in a = 0 ∧ Account.login_time a = None.
Proof.
  intros Ha Hu. apply list_elem_of_fmap in Ha as (b & -> & _).
  destruct (String.eqb (Account.username b) username) eqn:E; simpl in *; [done|].
  by apply String.eqb_neq in E.
Qed.

Lemma updated_others (set : Account.t → Account.t) (rows : list Account.t)
    (username : string) (i : nat) (a : Account.t) :
  rows !! i = Some a →
  Account.username a ≠ username →
  map (fun a => if String.eqb (Account.username a) username then set a else a) rows
    !! i = Some a.
Proof.
  intros Hi Hne. rewrite list_lookup_fmap, Hi. simpl.
  by rewrite (proj2 (String.eqb_neq _ _) Hne).
Qed.

(** ** The administrative messages, lines 160-183 *)

(** X8: [player_force_logout], from whichever node, sets [logged_in = 0],
    [login_time = null] on the rows of that username and on no other row,
    sends nothing, and writes neither a Session row nor a file. *)
Theorem force_logout_releases rt st msg username :
  type msg = player_force_logout username →
  let (st', replies) := handle rt st msg in
  replies = []
  ∧ lookup_account st' username
    = Account.set_logged_in 0 None <$> lookup_account st username
  ∧ (∀ a, a ∈ account st' → Account.username a = username →
       Account.logged_in a = 0 ∧ Account.login_time a = None)
  ∧ (∀ i a, account st !! i = Some a → Account.username a ≠ username →
       account st' !! i = Some a)
  ∧ session st' = session st
  ∧ files st' = files st.
Proof.
  intros Hty. destruct msg as [ty n t p]. simpl in *. subst ty. run.
  split; [done|]. split; [apply lookup_released|].
  split; [apply released_rows|]. split; [|done].
  intros i a. apply updated_others.
Qed.

(** X9: [player_ban] sets [banned_until] to [toDbDate(until)] on the rows
    of that username and sends nothing; it releases nobody: [logged_in]
    and [login_time] of every row stay as they were, and no Session row
    or file is written. *)
Theorem ban_keeps_ownership rt st msg staff username until :
  type msg = player_ban staff username until →
  let (st', replies) := handle rt st msg in
  replies = []
  ∧ lookup_account st' username
    = Account.set_banned_until (Some (toDbDate until)) <$> lookup_account st username
  ∧ map (fun a => (Account.logged_in a, Account.login_time a)) (account st')
    = map (fun a => (Account.logged_in a, Account.login_time a)) (account st)
  ∧ (∀ i a, account st !! i = Some a → Account.username a ≠ username →
       account st' !! i = Some a)
  ∧ session st' = session st
  ∧ files st' = files st.
Proof.
  intros Hty. destruct msg as [ty n t p]. simpl in *. subst ty. run.
  split; [done|]. split; [|split; [|split; [|done]]].
  - rewrite (find_map_stable _
      (fun a => if String.eqb (Account.username a) username
                then Account.set_banned_until (Some (toDbDate until)) a else a)).
    + destruct (find _ (account st)) as [a|] eqn:E; simpl; [|done].
      apply find_some_holds in E. by rewrite E.
    + intros a. by destruct (String.eqb (Account.username a) username) eqn:E.
  - induction (account st) as [|a rows IH]; simpl; [done|].
    rewrite IH. by destruct (String.eqb (Account.username a) username).
  - intros i a. apply updated_others.
Qed.

(** X10: after a [player_ban] of an account, a login to it whose password
    verifies, handled before [toDbDate(until)], is answered with code 5
    only and writes nothing. *)
Theorem ban_then_login rt st msg staff username until acc
    rt2 msg2 replyTo password uid socket remoteAddress :
  type msg = player_ban staff username until →
  lookup_account st username = Some acc →
  type msg2 = player_login replyTo username password uid socket remoteAddress →
  bcrypt_compare (toLowerCase password) (Account.password acc) = true →
  Date_at_ban_check rt2 < toDbDate until →
  let st1 := fst (handle rt st msg) in
  handle rt2 st1 msg2 = (st1, [Reply.mk replyTo 5 None None None]).
Proof.
  intros Hty Hacc Hty2 Hpw Hlt st1.
  assert (Hacc1 : lookup_account st1 username
                  = Some (Account.set_banned_until (Some (toDbDate until)) acc)).
  { subst st1. destruct msg as [ty n t p]. simpl in *. subst ty. run.
    rewrite (lookup_updated (Account.set_banned_until (Some (toDbDate until)))
               (fun a => String.eqb (Account.username a) username)
               (account st) username acc); [|done|done].
    apply find_some_holds in Hacc. by rewrite Hacc. }
  clearbody st1. destruct msg2 as [ty n t p]. simpl in *. subst ty.
  run. rewrite Hacc1. simpl. rewrite andb_false_r. simpl. rewrite Hpw. simpl.
  unfold banned. simpl. by rewrite (proj2 (Z.ltb_lt _ _) Hlt).
Qed.

(** X11: a ban ends at [banned_until] itself: a login whose password
    verifies, handled at that time or later, is not answered with code 5,
    and its Session row is written. *)
Theorem login_at_ban_expiry rt st msg replyTo username password uid socket
    remoteAddress acc until :
  type msg = player_login replyTo username password uid socket remoteAddress →
  lookup_account st username = Some acc →
  bcrypt_compare (toLowerCase password) (Account.password acc) = true →
  Account.banned_until acc = Some until →
  until ≤ Date_at_ban_check rt →
  let (st', replies) := handle rt st msg in
  (∀ r, r ∈ replies → Reply.response r ≠ 5)
  ∧ session st' = session st ++ [session_row msg socket uid remoteAddress acc].
Proof.
  intros Hty Hacc Hpw Huntil Hle.
  assert (Hban : banned (Date_at_ban_check rt) acc = false).
  { unfold banned. rewrite Huntil. by apply Z.ltb_ge. }
  destruct msg as [ty n t p]. simpl in *. subst ty.
  run. rewrite Hacc. simpl. rewrite andb_false_r. simpl. rewrite Hpw. simpl.
  rewrite Hban. simpl. paths; (split; [intros r Hr; members Hr; done | done]).
Qed.

(** X12: [player_mute] sends nothing and leaves ownership alone, and a
    login that follows it and is let through reports the mute: each of its
    frames has code 0 or 4 and carries [muted_until = toDbDate(until)]. *)
Theorem mute_then_login rt st msg staff username until acc
    rt2 msg2 replyTo password uid socket remoteAddress :
  type msg = player_mute staff username until →
  lookup_account st username = Some acc →
  type msg2 = player_login replyTo username password uid socket remoteAddress →
  bcrypt_compare (toLowerCase password) (Account.password acc) = true →
  banned (Date_at_ban_check rt2) acc = false →
  Account.logged_in acc = 0 →
  nodeId msg2 ≠ 0 →
  let (st1, replies1) := handle rt st msg in
  let (st2, replies) := handle rt2 st1 msg2 in
  replies1 = []
  ∧ (∀ r, r ∈ replies →
       (Reply.response r = 0 ∨ Reply.response r = 4)
       ∧ Reply.muted_until r = Some (Some (toDbDate until)))
  ∧ (exists_in st (save_path (profile msg2) username) = false →
       replies = [Reply.mk replyTo 4 (Some (Account.staffmodlevel acc)) None
                           (Some (Some (toDbDate until)))])
  ∧ Account.logged_in <$> lookup_account st2 username = Some (nodeId msg2).
Proof.
  intros Hty Hacc Hty2 Hpw Hban H0 Hn.
  set (acc1 := Account.set_muted_until (Some (toDbDate until)) acc).
  destruct (handle rt st msg) as [st1 replies1] eqn:Hrun.
  assert (Hst1 : replies1 = [] ∧ lookup_account st1 username = Some acc1
                 ∧ files st1 = files st ∧ dirs st1 = dirs st).
  { revert Hrun. destruct msg as [ty n t p]. simpl in *. subst ty. run.
    intros [= <- <-]. simpl. split; [done|]. split; [|done].
    rewrite (lookup_updated (Account.set_muted_until (Some (toDbDate until)))
               (fun a => String.eqb (Account.username a) username)
               (account st) username acc); [|done|done].
    apply find_some_holds in Hacc. by rewrite Hacc. }
  destruct Hst1 as (-> & Hacc1 & Hfiles & Hdirs).
  rewrite (login_unowned rt2 st1 msg2 replyTo username password uid socket
             remoteAddress acc1 Hty2 Hacc1); [|done|done|done|done].
  split; [done|]. rewrite Hfiles, Hdirs. unfold exists_in. split; [|split].
  - intros r Hr. destruct (files st !! save_path (profile msg2) username).
    + apply list_elem_of_singleton in Hr as ->. split; [by left | done].
    + destruct (bool_decide _); [by apply elem_of_nil in Hr|].
      apply list_elem_of_singleton in Hr as ->. split; [by right | done].
  - destruct (files st !! save_path (profile msg2) username); [done|].
    destruct (bool_decide _); done.
  - unfold lookup_account in *. simpl.
    by rewrite (lookup_claimed rt2 msg2 (account st1) username acc1 Hacc1).
Qed.

(** ** The frames that are sent *)

(** X13: a message is answered with at most two frames, and only a
    [player_login] or a [player_logout] is answered at all; each frame
    carries the [replyTo] of the message; a frame to a logout is the bare
    code 0, a frame to a login has a code from 0 to 5 and carries a save
    exactly when the code is 0. *)
Theorem replies_answer rt st msg :
  (length (snd (handle rt st msg)) ≤ 2)%nat
  ∧ ∀ r, r ∈ snd (handle rt st msg) →
      (∃ username password uid socket remoteAddress,
         type msg = player_login (Reply.replyTo r) username password uid
                                 socket remoteAddress
         ∧ 0 ≤ Reply.response r ≤ 5
         ∧ (is_Some (Reply.save r) ↔ Reply.response r = 0))
      ∨ (∃ username save,
           type msg = player_logout (Reply.replyTo r) username save
           ∧ r = Reply.mk (Reply.replyTo r) 0 None None None).
Proof.
  destruct msg as [ty n t p]. destruct ty; run; paths;
    (split; [simpl; lia|]); intros r Hr; members Hr;
    first [ by (right; eexists _, _)
          | (left; eexists _, _, _, _, _; split; [reflexivity|]; simpl;
             split; [lia|]; split; [by intros [? [=]] | by intros [=]])
          | (left; eexists _, _, _, _, _; split; [reflexivity|]; simpl;
             split; [lia|]; split; [done | by eexists]) ].
Qed.

(** ** Messages one after the other *)

(** X14: a [world_startup] handled again right after itself changes
    nothing. *)
Theorem world_startup_idempotent rt rt2 st msg :
  type msg = world_startup →
  let st1 := fst (handle rt st msg) in
  handle rt2 st1 msg = (st1, []).
Proof.
  intros Hty. destruct msg as [ty n t p]. simpl in *. subst ty. run.
  f_equal. f_equal. rewrite map_map. apply map_ext. intros a.
  destruct (Z.eqb_spec (Account.logged_in a) n) as [Ha | Ha].
  - unfold Account.set_logged_in at 1. cbn [Account.logged_in].
    by destruct (0 =? n).
  - by rewrite (proj2 (Z.eqb_neq _ _) Ha).
Qed.

(** X15: after a [player_logout] with a save that verifies and is
    written (lines 127-136 run to their end), sent by whichever node, a
    login to that account and profile from a node whose id is not 0, with
    a password that verifies and no ban, the login handled once the
    logout is over, is answered with the single frame of code 0 that
    carries the bytes just written, and takes the account for its node. *)
Theorem logout_then_login rt st msg replyTo username save acc
    rt2 msg2 replyTo2 password uid socket remoteAddress :
  type msg = player_logout replyTo username save →
  PlayerLoading_verify (Buffer_from_base64 save) = true →
  write_completes st (profile msg) username save = true →
  lookup_account st username = Some acc →
  type msg2 = player_login replyTo2 username password uid socket remoteAddress →
  profile msg2 = profile msg →
  bcrypt_compare (toLowerCase password) (Account.password acc) = true →
  banned (Date_at_ban_check rt2) acc = false →
  nodeId msg2 ≠ 0 →
  let st1 := fst (handle rt st msg) in
  let (st2, replies) := handle rt2 st1 msg2 in
  replies = [Reply.mk replyTo2 0 (Some (Account.staffmodlevel acc))
                      (Some (Buffer_toString_base64 (Buffer_from_base64 save)))
                      (Some (Account.muted_until acc))]
  ∧ Account.logged_in <$> lookup_account st2 username = Some (nodeId msg2)
  ∧ files st2 !! save_path (profile msg) username = Some (Buffer_from_base64 save).
Proof.
  intros Hty Hv Hdone Hacc Hty2 Hprof Hpw Hban Hn st1.
  set (acc1 := Account.set_logged_in 0 None acc).
  assert (Hacc1 : lookup_account st1 username = Some acc1).
  { subst st1. unfold lookup_account.
    rewrite (release_accounts rt st msg replyTo username save Hty Hdone).
    rewrite lookup_released. unfold lookup_account in Hacc. by rewrite Hacc. }
  assert (Hfile : files st1 !! save_path (profile msg2) username
                  = Some (Buffer_from_base64 save)).
  { subst st1. rewrite (write_files rt st msg username save)
      by (left; by exists replyTo).
    rewrite Hv, Hdone, Hprof. apply lookup_insert_eq. }
  rewrite (login_unowned rt2 st1 msg2 replyTo2 username password uid socket
             remoteAddress acc1 Hty2 Hacc1); [|done|done|done|done].
  rewrite Hfile. split; [done|]. split.
  - unfold lookup_account in *. simpl.
    by rewrite (lookup_claimed rt2 msg2 (account st1) username acc1 Hacc1).
  - simpl. by rewrite <- Hprof.
Qed.

(** X16: after the [world_startup] of a node whose id is not 0, a login
    from that node to an account it owned before, with a password that
    verifies and no ban, is a fresh login: no frame with code 2, one frame
    with code 0 or 4 at most, and the account is taken again. *)
Theorem startup_then_login rt st msg username acc
    rt2 msg2 replyTo password uid socket remoteAddress :
  type msg = world_startup →
  nodeId msg ≠ 0 →
  lookup_account st username = Some acc →
  Account.logged_in acc = nodeId msg →
  type msg2 = player_login replyTo username password uid socket remoteAddress →
  nodeId msg2 = nodeId msg →
  bcrypt_compare (toLowerCase password) (Account.password acc) = true →
  banned (Date_at_ban_check rt2) acc = false →
  let st1 := fst (handle rt st msg) in
  let (st2, replies) := handle rt2 st1 msg2 in
  lookup_account st1 username = Some (Account.set_logged_in 0 None acc)
  ∧ (∀ r, r ∈ replies → Reply.response r = 0 ∨ Reply.response r = 4)
  ∧ (exists_in st (save_path (profile msg2) username) = false →
       replies = [reply_no_save replyTo acc])
  ∧ Account.logged_in <$> lookup_account st2 username = Some (nodeId msg2).
Proof.
  intros Hty Hn Hacc Hown Hty2 Hsame Hpw Hban st1.
  set (acc1 := Account.set_logged_in 0 None acc).
  assert (Hst1 : lookup_account st1 username = Some acc1
                 ∧ files st1 = files st ∧ dirs st1 = dirs st).
  { subst st1. destruct msg as [ty n t p]. simpl in *. subst ty. run.
    split; [|done].
    rewrite (lookup_updated (Account.set_logged_in 0 None)
               (fun a => Account.logged_in a =? n) (account st) username acc);
      [|done|done].
    by rewrite (proj2 (Z.eqb_eq _ _) Hown). }
  destruct Hst1 as (Hacc1 & Hfiles & Hdirs).
  rewrite (login_unowned rt2 st1 msg2 replyTo username password uid socket
             remoteAddress acc1 Hty2 Hacc1); [|done|done|done|congruence].
  split; [done|]. rewrite Hfiles, Hdirs. unfold exists_in. split; [|split].
  - intros r Hr. destruct (files st !! save_path (profile msg2) username).
    + apply list_elem_of_singleton in Hr as ->. by left.
    + destruct (bool_decide _); [by apply elem_of_nil in Hr|].
      apply list_elem_of_singleton in Hr as ->. by right.
  - destruct (files st !! save_path (profile msg2) username); [done|].
    destruct (bool_decide _); done.
  - unfold lookup_account in *. simpl.
    by rewrite (lookup_claimed rt2 msg2 (account st1) username acc1 Hacc1).
Qed.

(** ** Ownership and login time *)

(** X17: a message from a node whose id is not 0 keeps the table such
    that a row nobody owns has no login time: [logged_in] and [login_time]
    are only ever set together, to 0 and null or to the node and a date. *)
Theorem unowned_stay_without_time rt st msg :
  nodeId msg ≠ 0 →
  unowned_without_time st →
  unowned_without_time (fst (handle rt st msg)).
Proof.
  unfold unowned_without_time.
  destruct msg as [ty n t p]. simpl. intros Hn Hinv.
  destruct ty; run; paths; intros a Ha Hzero;
    try (by apply Hinv);
    try (apply elem_of_app in Ha as [Ha | Ha];
         [by apply Hinv | by apply list_elem_of_singleton in Ha as ->]);
    apply list_elem_of_fmap in Ha as (b & -> & Hb);
    match goal with
    | _ : context [if ?c then _ else _] |- _ =>
        destruct c; simpl in *; first [done | congruence | by apply Hinv]
    end.
Qed.

(** X18: a login changes no row but those with the id of the account it
    found: every other row of the table is afterwards where and what it
    was. *)
Theorem login_other_rows rt st msg replyTo username password uid socket remoteAddress :
  type msg = player_login replyTo username password uid socket remoteAddress →
  ∀ i a, account st !! i = Some a →
         (∀ acc, lookup_account st username = Some acc →
                 Account.id a ≠ Account.id acc) →
         account (fst (handle rt st msg)) !! i = Some a.
Proof.
  intros Hty i a Hi. destruct msg as [ty n t p]. simpl in *. subst ty.
  run. paths; intros Hid; try done;
    try (by apply lookup_app_l_Some);
    rewrite list_lookup_fmap, Hi; simpl;
    by rewrite (proj2 (Z.eqb_neq _ _) (Hid _ eq_refl)).
Qed.

(** ** The save path taken by a directory *)

(** X19: when something is at the save path but no regular file (a
    directory), a login from a node whose id is not 0 that is let through
    on an unowned account writes its Session row and takes the account,
    and then ends in the exception of [readFile]: no frame is sent. *)
Theorem login_save_path_not_a_file rt st msg replyTo username password uid socket
    remoteAddress acc :
  type msg = player_login replyTo username password uid socket remoteAddress →
  lookup_account st username = Some acc →
  bcrypt_compare (toLowerCase password) (Account.password acc) = true →
  banned (Date_at_ban_check rt) acc = false →
  Account.logged_in acc = 0 →
  nodeId msg ≠ 0 →
  files st !! save_path (profile msg) username = None →
  exists_in st (save_path (profile msg) username) = true →
  let (st', replies) := handle rt st msg in
  replies = []
  ∧ Account.logged_in <$> lookup_account st' username = Some (nodeId msg)
  ∧ session st' = session st ++ [session_row msg socket uid remoteAddress acc].
Proof.
  intros Hty Hacc Hpw Hban H0 Hn Hfile Hex.
  rewrite (login_unowned rt st msg replyTo username password uid socket
             remoteAddress acc Hty Hacc Hpw Hban H0 Hn).
  unfold exists_in in Hex. rewrite Hfile in *. rewrite Hex.
  split; [done|]. split; [|done].
  unfold lookup_account in *. simpl.
  by rewrite (lookup_claimed rt msg (account st) username acc Hacc).
Qed.

End Branches.

(** ** Save paths *)

Lemma append_nil_l (s : string) : "" +:+ s = s.
Proof. reflexivity. Qed.

Lemma append_cons (c : ascii) (a b : string) :
  String c a +:+ b = String c (a +:+ b).
Proof. reflexivity. Qed.

Lemma append_assoc (a b c : string) : (a +:+ b) +:+ c = a +:+ (b +:+ c).
Proof.
  induction a as [|x a IH]; rewrite ?append_nil_l, ?append_cons;
    [done | by rewrite IH].
Qed.

Lemma length_append (a b : string) :
  String.length (a +:+ b) = (String.length a + String.length b)%nat.
Proof.
  induction a as [|c a IH]; rewrite ?append_nil_l, ?append_cons; simpl;
    [done | by rewrite IH].
Qed.

Lemma append_inv_tail (u u' s : string) : u +:+ s = u' +:+ s → u = u'.
Proof.
  revert u'. induction u as [|c u IH]; intros [|c' u'] Heq;
    rewrite ?append_nil_l, ?append_cons in Heq.
  - done.
  - apply (f_equal String.length) in Heq. simpl in Heq.
    rewrite length_append in Heq. lia.
  - apply (f_equal String.length) in Heq. simpl in Heq.
    rewrite length_append in Heq. lia.
  - injection Heq as -> Heq. by rewrite (IH u' Heq).
Qed.

Lemma no_slash_append (a b : string) :
  no_slash (a +:+ b) = no_slash a && no_slash b.
Proof.
  induction a as [|c a IH]; rewrite ?append_nil_l, ?append_cons; simpl; [done|].
  rewrite IH. by rewrite andb_assoc.
Qed.

Lemma no_slash_after_slash (a b : string) : no_slash (a +:+ String "/" b) = false.
Proof.
  induction a as [|c a IH]; rewrite ?append_nil_l, ?append_cons; simpl; [done|].
  rewrite IH. apply andb_false_r.
Qed.

(** The last ["/"] of a path splits it in one way only. *)
Lemma split_at_last_slash (x x' y y' : string) :
  no_slash y = true → no_slash y' = true →
  x +:+ String "/" y = x' +:+ String "/" y' → x = x' ∧ y = y'.
Proof.
  revert x'. induction x as [|c x IH]; intros [|c' x'] Hy Hy' Heq;
    rewrite ?append_nil_l, ?append_cons in Heq.
  - by injection Heq as ->.
  - injection Heq as <- ->. by rewrite no_slash_after_slash in Hy.
  - injection Heq as -> <-. by rewrite no_slash_after_slash in Hy'.
  - injection Heq as -> Heq. by destruct (IH x' Hy Hy' Heq) as [-> ->].
Qed.

Lemma save_path_split (profile profile' username username' : string) :
  no_slash username = true →
  no_slash username' = true →
  save_path profile username = save_path profile' username' →
  profile = profile' ∧ username = username'.
Proof.
  intros Hu Hu' Heq. unfold save_path in Heq.
  apply (inj (String.append "data/players/")) in Heq.
  change (profile +:+ String "/" (username +:+ ".sav")
          = profile' +:+ String "/" (username' +:+ ".sav")) in Heq.
  apply split_at_last_slash in Heq as [-> Heq].
  - split; [done|]. by apply (append_inv_tail _ _ ".sav").
  - by rewrite no_slash_append, Hu.
  - by rewrite no_slash_append, Hu'.
Qed.

(** X20: two save paths are equal only for the same profile and username,
    as long as the usernames have no ["/"] in them. *)
Theorem save_path_injective (profile profile' username username' : string) :
  no_slash username = true →
  no_slash username' = true →
  save_path profile username = save_path profile' username' →
  profile = profile' ∧ username = username'.
Proof.
  intros Hu Hu' Heq. split.
  - by destruct (save_path_split profile profile' username username' Hu Hu' Heq).
  - by destruct (save_path_split profile profile' username username' Hu Hu' Heq).
Qed.

(** X21: with a ["/"] in the names the save path does not tell profile and
    username apart: the save of [v] in profile [p/u] and the save of [u/v]
    in profile [p] are one file. *)
Theorem save_path_slash_alias (p u v : string) :
  save_path (p +:+ "/" +:+ u) v = save_path p (u +:+ "/" +:+ v).
Proof.
  unfold save_path. by rewrite !append_assoc.
Qed.

Section Saves.
Context `{Platform}.

(** X22: a [player_logout] or [player_autosave] for one profile and
    username leaves the save of every other profile and username as it
    was, the profiles being plain names (not empty, not ["."] or [".."],
    no ["/"]) and the usernames having no ["/"] in them. *)
Theorem write_keeps_other_saves rt st msg username save profile' username' :
  (∃ replyTo, type msg = player_logout replyTo username save)
  ∨ type msg = player_autosave username save →
  plain_name (profile msg) = true →
  plain_name profile' = true →
  no_slash username = true →
  no_slash username' = true →
  (profile msg, username) ≠ (profile', username') →
  files (fst (handle rt st msg)) !! save_path profile' username'
  = files st !! save_path profile' username'.
Proof.
  intros Hty _ _ Hu Hu' Hne. rewrite (write_files rt st msg username save Hty).
  destruct (PlayerLoading_verify (Buffer_from_base64 save)
            && write_completes st (profile msg) username save); [|done].
  apply lookup_insert_ne. intros Heq.
  apply save_path_split in Heq as [Hp Hn]; [|done|done].
  apply Hne. by rewrite Hp, Hn.
Qed.

Lemma with_slash_no_slash (s : string) : with_slash s = negb (no_slash s).
Proof.
  induction s as [|c s IH]; simpl; [done|]. rewrite IH.
  by destruct (Ascii.eqb c "/"), (no_slash s).
Qed.

Lemma dirname_at_last_slash (x y : string) :
  no_slash y = true → dirname (x +:+ String "/" y) = x.
Proof.
  intros Hy. induction x as [|c x IH]; rewrite ?append_nil_l, ?append_cons.
  - unfold dirname. by rewrite with_slash_no_slash, Hy.
  - change (dirname (String c (x +:+ String "/" y)))
      with (if with_slash (x +:+ String "/" y)
            then String c (dirname (x +:+ String "/" y)) else EmptyString).
    by rewrite with_slash_no_slash, no_slash_after_slash, IH.
Qed.

Lemma dirname_save_path (profile username : string) :
  no_slash username = true →
  dirname (save_path profile username) = profile_dir profile.
Proof.
  intros Hu. unfold save_path, profile_dir.
  change ("data/players/" +:+ profile +:+ "/" +:+ username +:+ ".sav")
    with ("data/players/" +:+ (profile +:+ String "/" (username +:+ ".sav"))).
  rewrite <- append_assoc. apply dirname_at_last_slash.
  by rewrite no_slash_append, Hu.
Qed.

(** Lines 127-136 run to their end when the username has no ["/"], the
    profile directory is there and the save path is not a directory. *)
Lemma write_completes_in_profile_dir st profile username save :
  no_slash username = true →
  profile_dir profile ∈ dirs st →
  save_path profile username ∉ dirs st →
  write_completes st profile username save = true.
Proof.
  intros Hu Hdir Hpath. run.
  destruct (PlayerLoading_verify (Buffer_from_base64 save)); simpl; [|done].
  rewrite (bool_decide_eq_true_2 _ Hdir).
  destruct (files st !! profile_dir profile); simpl;
    rewrite (bool_decide_eq_false_2 _ Hpath), (dirname_save_path _ _ Hu),
      (bool_decide_eq_true_2 _ Hdir); done.
Qed.

(** The row with a given id, ids being unique. *)
Lemma same_id_same_row (rows : list Account.t) (a b : Account.t) :
  NoDup (map Account.id rows) → a ∈ rows → b ∈ rows →
  Account.id a = Account.id b → a = b.
Proof.
  induction rows as [|r rows IH]; simpl; intros Hnd Ha Hb Hid.
  - by apply elem_of_nil in Ha.
  - apply NoDup_cons in Hnd as [Hr Hnd].
    apply elem_of_cons in Ha as [-> | Ha]; apply elem_of_cons in Hb as [-> | Hb].
    + done.
    + exfalso. apply Hr. rewrite Hid. apply list_elem_of_fmap. by exists b.
    + exfalso. apply Hr. rewrite <- Hid. apply list_elem_of_fmap. by exists a.
    + by apply IH.
Qed.

Lemma find_elem_of {A} (p : A → bool) (l : list A) (a : A) :
  find p l = Some a → a ∈ l.
Proof. intros Hf. apply list_elem_of_In. by destruct (find_some _ _ Hf). Qed.

(** X23: a message handled with no other handler running in between
    hands no owned account to another node: ids being unique, a row whose
    [logged_in] is not 0 has afterwards the same [logged_in], or 0. *)
Theorem owner_kept_until_release rt st msg i a :
  ids_unique st →
  account st !! i = Some a →
  Account.logged_in a ≠ 0 →
  ∃ a', account (fst (handle rt st msg)) !! i = Some a'
        ∧ (Account.logged_in a' = Account.logged_in a ∨ Account.logged_in a' = 0).
Proof.
  unfold ids_unique. intros Hnd Hi Hown.
  assert (Hin : a ∈ account st) by (apply list_elem_of_lookup; by exists i).
  destruct msg as [ty n t p]. destruct ty; run;
    repeat match goal with
    | |- context [find ?q (account st)] =>
        destruct (find q (account st)) as [?acc|] eqn:?Hacc; simpl
    | |- context [WEBSITE_REGISTRATION] => destruct WEBSITE_REGISTRATION; simpl
    | |- context [bcrypt_compare ?x ?y] => destruct (bcrypt_compare x y); simpl
    | |- context [banned ?x ?y] => destruct (banned x y); simpl
    | |- context [PlayerLoading_verify ?r] => destruct (PlayerLoading_verify r); simpl
    | Hf : files st !! ?q = _ |- context [files st !! ?q] => rewrite Hf; simpl
    | |- context [files st !! ?q] => destruct (files st !! q) eqn:?Hfile; simpl
    | |- context [in_the_way ?s ?q] => destruct (in_the_way s q); simpl
    | |- context [bool_decide ?P] => destruct (bool_decide P); simpl
    | |- context [Account.logged_in ?x =? ?m] =>
        lazymatch x with
        | a => fail
        | _ => destruct (Z.eqb_spec (Account.logged_in x) m); simpl
        end
    end;
    try (by (exists a; split; [done | by left]));
    try (by (exists a; split; [by apply lookup_app_l_Some | by left]));
    rewrite list_lookup_fmap, Hi; simpl; eexists; (split; [reflexivity|]);
    match goal with
    | |- context [if String.eqb ?x ?y then _ else _] =>
        destruct (String.eqb x y); simpl; by auto
    | |- context [if Account.logged_in a =? ?m then _ else _] =>
        destruct (Account.logged_in a =? m); simpl; by auto
    | |- context [Account.id a =? Account.id ?acc] =>
        destruct (Z.eqb_spec (Account.id a) (Account.id acc)) as [Hid | Hid];
        simpl; [|by left];
        assert (a = acc)
          by (apply (same_id_same_row (account st)); eauto using find_elem_of);
        subst acc; simpl; first [by left | congruence | (left; congruence)]
    end.
Qed.

End Saves.

(** ** Two logins interleaved at the first [await] *)

Section Interleaving.
Context `{Platform}.

(** A login is its select followed by the rest, and [handle] runs both
    with nothing in between. *)
Lemma login_select_then_rest rt st msg replyTo username password uid socket
    remoteAddress :
  type msg = player_login replyTo username password uid socket remoteAddress →
  handle rt st msg
  = run_on (login_after_select rt (nodeId msg) (nodeTime msg) (profile msg)
              replyTo username password uid socket remoteAddress
              (lookup_account st username)) st.
Proof.
  intros Hty. destruct msg as [ty n t p]. simpl in *. subst ty. reflexivity.
Qed.

Lemma after_select_unowned rt st n t p replyTo username password uid socket
    remoteAddress acc :
  bcrypt_compare (toLowerCase password) (Account.password acc) = true →
  banned (Date_at_ban_check rt) acc = false →
  Account.logged_in acc = 0 →
  n ≠ 0 →
  run_on (login_after_select rt n t p replyTo username password uid socket
            remoteAddress (Some acc)) st
  = ({| account :=
          map (fun a => if Account.id a =? Account.id acc
                        then Account.set_logged_in n
                               (Some (toDbDate (Date_at_claim rt))) a
                        else a) (account st);
        session := session st
                   ++ [Session.mk socket (Account.id acc) p n (toDbDate t) uid
                                  remoteAddress];
        files := files st;
        dirs := dirs st |},
     match files st !! save_path p username with
     | Some raw => [reply_save replyTo acc raw]
     | None => if bool_decide (save_path p username ∈ dirs st)
               then [] else [reply_no_save replyTo acc]
     end).
Proof.
  intros Hpw Hban H0 Hn. unfold run_on, login_after_select.
  run. rewrite andb_false_r. simpl.
  rewrite Hpw. simpl. rewrite Hban. simpl. rewrite H0.
  rewrite (proj2 (Z.eqb_neq 0 n)) by congruence. simpl.
  destruct (files st !! save_path p username) as [raw|] eqn:Hfile; simpl;
    rewrite ?Hfile; simpl; [done|].
  destruct (bool_decide (save_path p username ∈ dirs st)); simpl;
    rewrite ?Hfile; simpl; done.
Qed.

(** X24: two logins to one unowned account, from two nodes whose ids are
    not 0, whose selects of line 36 both answer before either goes on:
    both are let through with code 0 or 4, none is answered with code 3,
    and the account ends with the node of the login that went on last. *)
Theorem logins_interleaved_both_claim st username acc
    rt1 n1 t1 p1 replyTo1 password1 uid1 socket1 remoteAddress1
    rt2 n2 t2 p2 replyTo2 password2 uid2 socket2 remoteAddress2 :
  lookup_account st username = Some acc →
  Account.logged_in acc = 0 →
  n1 ≠ 0 →
  n2 ≠ 0 →
  bcrypt_compare (toLowerCase password1) (Account.password acc) = true →
  bcrypt_compare (toLowerCase password2) (Account.password acc) = true →
  banned (Date_at_ban_check rt1) acc = false →
  banned (Date_at_ban_check rt2) acc = false →
  let (st1, replies1) :=
    run_on (login_after_select rt1 n1 t1 p1 replyTo1 username password1 uid1
              socket1 remoteAddress1 (Some acc)) st in
  let (st2, replies2) :=
    run_on (login_after_select rt2 n2 t2 p2 replyTo2 username password2 uid2
              socket2 remoteAddress2 (Some acc)) st1 in
  (∀ r, r ∈ replies1 ++ replies2 → Reply.response r = 0 ∨ Reply.response r = 4)
  ∧ (exists_in st (save_path p1 username) = false →
       replies1 = [reply_no_save replyTo1 acc])
  ∧ (exists_in st (save_path p2 username) = false →
       replies2 = [reply_no_save replyTo2 acc])
  ∧ Account.logged_in <$> lookup_account st1 username = Some n1
  ∧ Account.logged_in <$> lookup_account st2 username = Some n2.
Proof.
  intros Hacc H0 Hn1 Hn2 Hpw1 Hpw2 Hban1 Hban2.
  rewrite (after_select_unowned rt1 st n1 t1 p1 replyTo1 username password1 uid1
             socket1 remoteAddress1 acc Hpw1 Hban1 H0 Hn1).
  rewrite after_select_unowned by done. simpl.
  unfold exists_in, lookup_account in *. simpl.
  set (claim1 := fun a => if Account.id a =? Account.id acc
                          then Account.set_logged_in n1
                                 (Some (toDbDate (Date_at_claim rt1))) a
                          else a).
  assert (Hfind1 : find (fun a => String.eqb (Account.username a) username)
                        (map claim1 (account st))
                   = Some (Account.set_logged_in n1
                             (Some (toDbDate (Date_at_claim rt1))) acc)).
  { unfold claim1.
    rewrite (lookup_updated _ (fun a => Account.id a =? Account.id acc)
               (account st) username acc); [|done|done].
    by rewrite Z.eqb_refl. }
  split; [|split; [|split; [|split]]].
  - intros r Hr. apply elem_of_app in Hr as [Hr | Hr].
    + destruct (files st !! save_path p1 username).
      * apply list_elem_of_singleton in Hr as ->. by left.
      * destruct (bool_decide _); [by apply elem_of_nil in Hr|].
        apply list_elem_of_singleton in Hr as ->. by right.
    + destruct (files st !! save_path p2 username).
      * apply list_elem_of_singleton in Hr as ->. by left.
      * destruct (bool_decide _); [by apply elem_of_nil in Hr|].
        apply list_elem_of_singleton in Hr as ->. by right.
  - destruct (files st !! save_path p1 username); [done|].
    by destruct (bool_decide _).
  - destruct (files st !! save_path p2 username); [done|].
    by destruct (bool_decide _).
  - by rewrite Hfind1.
  - rewrite (lookup_updated
               (Account.set_logged_in n2 (Some (toDbDate (Date_at_claim rt2))))
               (fun a => Account.id a =? Account.id acc)
               (map claim1 (account st)) username _ (fun _ => eq_refl) Hfind1).
    simpl. by rewrite Z.eqb_refl.
Qed.

End Interleaving.

(** ** The further properties on the sample platform *)

Lemma sample_usernames_unique : usernames_unique Sample.st0.
Proof. unfold usernames_unique. apply (bool_decide_unpack _). by vm_compute. Qed.

Lemma sample_saves_verified :
  saves_verified (H := Sample.platform true) Sample.st0.
Proof.
  intros path raw Hl. simpl in Hl.
  apply lookup_singleton_Some in Hl as [_ <-]. reflexivity.
Qed.

Lemma sample_unowned_without_time : unowned_without_time Sample.st0.
Proof.
  intros a Ha Hzero. simpl in Ha.
  repeat (apply elem_of_cons in Ha as [-> | Ha]); try done.
  by apply elem_of_nil in Ha.
Qed.

Lemma usernames_stay_unique_witness :
  let P := Sample.platform false in
  usernames_unique Sample.st0
  ∧ usernames_unique (fst (handle Sample.rt0 Sample.st0 (Sample.login 9 "erin" "PW"))).
Proof.
  intros P. split; [exact sample_usernames_unique|].
  apply (usernames_stay_unique (H := P) Sample.rt0 Sample.st0
           (Sample.login 9 "erin" "PW") sample_usernames_unique).
Defined.

Lemma saves_stay_verified_witness :
  let P := Sample.platform true in
  let msg := {| type := player_autosave "bob" (string_of_list_byte [x20; x04; x07]);
                nodeId := 7; nodeTime := 6000; profile := "main" |} in
  saves_verified Sample.st0
  ∧ saves_verified (fst (handle Sample.rt0 Sample.st0 msg)).
Proof.
  intros P msg. split; [exact sample_saves_verified|].
  apply (saves_stay_verified (H := P) Sample.rt0 Sample.st0 msg sample_saves_verified).
Defined.

Lemma login_registers_witness :
  let P := Sample.platform false in
  let msg := Sample.login 9 "erin" "PW" in
  type msg = player_login 41 "erin" "PW" 99 "sock" "10.0.0.1"
  ∧ WEBSITE_REGISTRATION = false
  ∧ lookup_account Sample.st0 "erin" = None
  ∧ let (st', replies) := handle Sample.rt0 Sample.st0 msg in
    replies = [Reply.mk 41 4 (Some 0) None None]
    ∧ (∃ row, account st' = account Sample.st0 ++ [row]
              ∧ Account.username row = "erin"%string
              ∧ Account.password row
                = bcrypt_hashSync (toLowerCase "PW") 10 (bcrypt_salt Sample.rt0)
              ∧ lookup_account st' "erin" = Some row)
    ∧ session st' = session Sample.st0
    ∧ files st' = files Sample.st0.
Proof.
  intros P msg. do 3 (split; [reflexivity|]).
  apply (login_registers (H := P) Sample.rt0 Sample.st0 msg
           41 "erin" "PW" 99 "sock" "10.0.0.1"); reflexivity.
Defined.

Lemma register_then_login_witness :
  let P := Sample.platform false in
  let msg := Sample.login 9 "erin" "PW" in
  let msg2 := Sample.login 3 "erin" "pw" in
  type msg = player_login 41 "erin" "PW" 99 "sock" "10.0.0.1"
  ∧ WEBSITE_REGISTRATION = false
  ∧ lookup_account Sample.st0 "erin" = None
  ∧ type msg2 = player_login 41 "erin" "pw" 99 "sock" "10.0.0.1"
  ∧ toLowerCase "pw" = toLowerCase "PW"
  ∧ bcrypt_compare (toLowerCase "PW")
      (bcrypt_hashSync (toLowerCase "PW") 10 (bcrypt_salt Sample.rt0)) = true
  ∧ nodeId msg2 ≠ 0
  ∧ let st1 := fst (handle Sample.rt0 Sample.st0 msg) in
    let (st2, replies) := handle Sample.rt0 st1 msg2 in
    Account.logged_in <$> lookup_account st1 "erin" = Some 0
    ∧ Account.logged_in <$> lookup_account st2 "erin" = Some (nodeId msg2)
    ∧ length (session st2) = S (length (session Sample.st0))
    ∧ (∀ r, r ∈ replies → Reply.response r = 0 ∨ Reply.response r = 4).
Proof.
  intros P msg msg2. do 6 (split; [reflexivity|]). split; [simpl; lia|].
  apply (register_then_login (H := P) Sample.rt0 Sample.st0 msg
           41 "erin" "PW" 99 "sock" "10.0.0.1"
           Sample.rt0 msg2 41 "pw" 99 "sock" "10.0.0.1");
    try reflexivity.
  simpl. lia.
Defined.

Lemma force_logout_releases_witness :
  let P := Sample.platform true in
  let msg := {| type := player_force_logout "bob";
                nodeId := 9; nodeTime := 6000; profile := "main" |} in
  type msg = player_force_logout "bob"
  ∧ let (st', replies) := handle Sample.rt0 Sample.st0 msg in
    replies = []
    ∧ lookup_account st' "bob"
      = Account.set_logged_in 0 None <$> lookup_account Sample.st0 "bob"
    ∧ (∀ a, a ∈ account st' → Account.username a = "bob"%string →
         Account.logged_in a = 0 ∧ Account.login_time a = None)
    ∧ (∀ i a, account Sample.st0 !! i = Some a → Account.username a ≠ "bob"%string →
         account st' !! i = Some a)
    ∧ session st' = session Sample.st0
    ∧ files st' = files Sample.st0.
Proof.
  intros P msg. split; [reflexivity|].
  apply (force_logout_releases (H := P) Sample.rt0 Sample.st0 msg "bob" eq_refl).
Defined.

Lemma ban_keeps_ownership_witness :
  let P := Sample.platform true in
  let msg := {| type := player_ban "mod" "bob" 800000;
                nodeId := 9; nodeTime := 6000; profile := "main" |} in
  type msg = player_ban "mod" "bob" 800000
  ∧ let (st', replies) := handle Sample.rt0 Sample.st0 msg in
    replies = []
    ∧ lookup_account st' "bob"
      = Account.set_banned_until (Some (toDbDate 800000))
          <$> lookup_account Sample.st0 "bob"
    ∧ map (fun a => (Account.logged_in a, Account.login_time a)) (account st')
      = map (fun a => (Account.logged_in a, Account.login_time a))
            (account Sample.st0)
    ∧ (∀ i a, account Sample.st0 !! i = Some a → Account.username a ≠ "bob"%string →
         account st' !! i = Some a)
    ∧ session st' = session Sample.st0
    ∧ files st' = files Sample.st0.
Proof.
  intros P msg. split; [reflexivity|].
  apply (ban_keeps_ownership (H := P) Sample.rt0 Sample.st0 msg "mod" "bob" 800000
           eq_refl).
Defined.

Lemma ban_then_login_witness :
  let P := Sample.platform true in
  let msg := {| type := player_ban "mod" "carol" 800000;
                nodeId := 9; nodeTime := 6000; profile := "main" |} in
  let msg2 := Sample.login 9 "carol" "Secret" in
  type msg = player_ban "mod" "carol" 800000
  ∧ lookup_account Sample.st0 "carol" = Some Sample.carol
  ∧ type msg2 = player_login 41 "carol" "Secret" 99 "sock" "10.0.0.1"
  ∧ bcrypt_compare (toLowerCase "Secret") (Account.password Sample.carol) = true
  ∧ Date_at_ban_check Sample.rt0 < toDbDate 800000
  ∧ let st1 := fst (handle Sample.rt0 Sample.st0 msg) in
    handle Sample.rt0 st1 msg2 = (st1, [Reply.mk 41 5 None None None]).
Proof.
  intros P msg msg2. do 4 (split; [reflexivity|]). split; [by vm_compute|].
  apply (ban_then_login (H := P) Sample.rt0 Sample.st0 msg "mod" "carol" 800000
           Sample.carol Sample.rt0 msg2 41 "Secret" 99 "sock" "10.0.0.1");
    try reflexivity.
Defined.

Lemma login_at_ban_expiry_witness :
  let P := Sample.platform true in
  let rt := {| Date_at_ban_check := 900000; Date_at_claim := 900001;
               bcrypt_salt := "pepper" |} in
  let msg := Sample.login 9 "dave" "letmein" in
  type msg = player_login 41 "dave" "letmein" 99 "sock" "10.0.0.1"
  ∧ lookup_account Sample.st0 "dave" = Some Sample.dave
  ∧ bcrypt_compare (toLowerCase "letmein") (Account.password Sample.dave) = true
  ∧ Account.banned_until Sample.dave = Some 900000
  ∧ 900000 ≤ Date_at_ban_check rt
  ∧ let (st', replies) := handle rt Sample.st0 msg in
    (∀ r, r ∈ replies → Reply.response r ≠ 5)
    ∧ session st' = session Sample.st0
                    ++ [session_row msg "sock" 99 "10.0.0.1" Sample.dave].
Proof.
  intros P rt msg. do 4 (split; [reflexivity|]). split; [simpl; lia|].
  apply (login_at_ban_expiry (H := P) rt Sample.st0 msg
           41 "dave" "letmein" 99 "sock" "10.0.0.1" Sample.dave 900000);
    first [reflexivity | simpl; lia].
Defined.

Lemma mute_then_login_witness :
  let P := Sample.platform true in
  let msg := {| type := player_mute "mod" "carol" 700000;
                nodeId := 7; nodeTime := 6000; profile := "main" |} in
  let msg2 := {| type := player_login 44 "carol" "secret" 99 "sock" "10.0.0.1";
                 nodeId := 9; nodeTime := 6500; profile := "beta" |} in
  type msg = player_mute "mod" "carol" 700000
  ∧ lookup_account Sample.st0 "carol" = Some Sample.carol
  ∧ type msg2 = player_login 44 "carol" "secret" 99 "sock" "10.0.0.1"
  ∧ bcrypt_compare (toLowerCase "secret") (Account.password Sample.carol) = true
  ∧ banned (Date_at_ban_check Sample.rt0) Sample.carol = false
  ∧ Account.logged_in Sample.carol = 0
  ∧ nodeId msg2 ≠ 0
  ∧ let (st1, replies1) := handle Sample.rt0 Sample.st0 msg in
    let (st2, replies) := handle Sample.rt0 st1 msg2 in
    replies1 = []
    ∧ (∀ r, r ∈ replies →
         (Reply.response r = 0 ∨ Reply.response r = 4)
         ∧ Reply.muted_until r = Some (Some (toDbDate 700000)))
    ∧ (exists_in Sample.st0 (save_path (profile msg2) "carol") = false →
         replies = [Reply.mk 44 4 (Some (Account.staffmodlevel Sample.carol)) None
                             (Some (Some (toDbDate 700000)))])
    ∧ Account.logged_in <$> lookup_account st2 "carol" = Some (nodeId msg2).
Proof.
  intros P msg msg2. do 6 (split; [reflexivity|]). split; [simpl; lia|].
  apply (mute_then_login (H := P) Sample.rt0 Sample.st0 msg "mod" "carol" 700000
           Sample.carol Sample.rt0 msg2 44 "secret" 99 "sock" "10.0.0.1");
    first [reflexivity | simpl; lia].
Defined.

Lemma world_startup_idempotent_witness :
  let P := Sample.platform true in
  let msg := {| type := world_startup; nodeId := 7; nodeTime := 6000;
                profile := "main" |} in
  type msg = world_startup
  ∧ let st1 := fst (handle Sample.rt0 Sample.st0 msg) in
    handle Sample.rt0 st1 msg = (st1, []).
Proof.
  intros P msg. split; [reflexivity|].
  apply (world_startup_idempotent (H := P) Sample.rt0 Sample.rt0 Sample.st0 msg eq_refl).
Defined.

Lemma logout_then_login_witness :
  let P := Sample.platform true in
  let save := string_of_list_byte [x20; x04; x07; x08] in
  let msg := {| type := player_logout 42 "bob" save;
                nodeId := 3; nodeTime := 6000; profile := "main" |} in
  let msg2 := Sample.login 9 "bob" "hunter2" in
  type msg = player_logout 42 "bob" save
  ∧ PlayerLoading_verify (Buffer_from_base64 save) = true
  ∧ write_completes Sample.st0 (profile msg) "bob" save = true
  ∧ lookup_account Sample.st0 "bob" = Some Sample.bob
  ∧ type msg2 = player_login 41 "bob" "hunter2" 99 "sock" "10.0.0.1"
  ∧ profile msg2 = profile msg
  ∧ bcrypt_compare (toLowerCase "hunter2") (Account.password Sample.bob) = true
  ∧ banned (Date_at_ban_check Sample.rt0) Sample.bob = false
  ∧ nodeId msg2 ≠ 0
  ∧ let st1 := fst (handle Sample.rt0 Sample.st0 msg) in
    let (st2, replies) := handle Sample.rt0 st1 msg2 in
    replies = [Reply.mk 41 0 (Some (Account.staffmodlevel Sample.bob))
                        (Some (Buffer_toString_base64 (Buffer_from_base64 save)))
                        (Some (Account.muted_until Sample.bob))]
    ∧ Account.logged_in <$> lookup_account st2 "bob" = Some (nodeId msg2)
    ∧ files st2 !! save_path (profile msg) "bob" = Some (Buffer_from_base64 save).
Proof.
  intros P save msg msg2. do 2 (split; [reflexivity|]).
  split; [by vm_compute|]. do 5 (split; [reflexivity|]). split; [simpl; lia|].
  apply (logout_then_login (H := P) Sample.rt0 Sample.st0 msg 42 "bob" save
           Sample.bob Sample.rt0 msg2 41 "hunter2" 99 "sock" "10.0.0.1");
    first [reflexivity | (simpl; lia) | by vm_compute].
Defined.

Lemma startup_then_login_witness :
  let P := Sample.platform true in
  let msg := {| type := world_startup; nodeId := 7; nodeTime := 6000;
                profile := "main" |} in
  let msg2 := Sample.login 7 "bob" "hunter2" in
  type msg = world_startup
  ∧ nodeId msg ≠ 0
  ∧ lookup_account Sample.st0 "bob" = Some Sample.bob
  ∧ Account.logged_in Sample.bob = nodeId msg
  ∧ type msg2 = player_login 41 "bob" "hunter2" 99 "sock" "10.0.0.1"
  ∧ nodeId msg2 = nodeId msg
  ∧ bcrypt_compare (toLowerCase "hunter2") (Account.password Sample.bob) = true
  ∧ banned (Date_at_ban_check Sample.rt0) Sample.bob = false
  ∧ let st1 := fst (handle Sample.rt0 Sample.st0 msg) in
    let (st2, replies) := handle Sample.rt0 st1 msg2 in
    lookup_account st1 "bob" = Some (Account.set_logged_in 0 None Sample.bob)
    ∧ (∀ r, r ∈ replies → Reply.response r = 0 ∨ Reply.response r = 4)
    ∧ (exists_in Sample.st0 (save_path (profile msg2) "bob") = false →
         replies = [reply_no_save 41 Sample.bob])
    ∧ Account.logged_in <$> lookup_account st2 "bob" = Some (nodeId msg2).
Proof.
  intros P msg msg2. split; [reflexivity|]. split; [simpl; lia|].
  do 6 (split; [reflexivity|]).
  apply (startup_then_login (H := P) Sample.rt0 Sample.st0 msg "bob" Sample.bob
           Sample.rt0 msg2 41 "hunter2" 99 "sock" "10.0.0.1");
    first [reflexivity | simpl; lia].
Defined.

Lemma unowned_stay_without_time_witness :
  let P := Sample.platform true in
  let msg := Sample.login 9 "carol" "secret" in
  nodeId msg ≠ 0
  ∧ unowned_without_time Sample.st0
  ∧ unowned_without_time (fst (handle Sample.rt0 Sample.st0 msg)).
Proof.
  intros P msg.
  assert (Hn : nodeId msg ≠ 0) by (simpl; lia).
  split; [exact Hn|]. split; [exact sample_unowned_without_time|].
  apply (unowned_stay_without_time (H := P) Sample.rt0 Sample.st0 msg Hn
           sample_unowned_without_time).
Defined.

Lemma login_other_rows_witness :
  let P := Sample.platform true in
  let msg := Sample.login 9 "carol" "secret" in
  type msg = player_login 41 "carol" "secret" 99 "sock" "10.0.0.1"
  ∧ account Sample.st0 !! 0%nat = Some Sample.bob
  ∧ (∀ acc, lookup_account Sample.st0 "carol" = Some acc →
            Account.id Sample.bob ≠ Account.id acc)
  ∧ account (fst (handle Sample.rt0 Sample.st0 msg)) !! 0%nat = Some Sample.bob.
Proof.
  intros P msg.
  assert (Hid : ∀ acc, lookup_account Sample.st0 "carol" = Some acc →
                       Account.id Sample.bob ≠ Account.id acc).
  { intros acc Hacc. injection Hacc as <-. simpl. lia. }
  do 2 (split; [reflexivity|]). split; [exact Hid|].
  apply (login_other_rows (H := P) Sample.rt0 Sample.st0 msg
           41 "carol" "secret" 99 "sock" "10.0.0.1" eq_refl 0%nat Sample.bob
           eq_refl Hid).
Defined.

(** An autosave to the profile "main/frank.sav" makes the directory that
    is the save path of frank in profile "main"; his next login there
    takes the account and is never answered. *)
Lemma login_save_path_not_a_file_witness :
  let P := Sample.platform true in
  let frank := Account.mk 4 "frank" "salt$pass" 0 None None None 0 in
  let autosave := {| type := player_autosave "x" (string_of_list_byte [x20; x04]);
                     nodeId := 7; nodeTime := 6000; profile := "main/frank.sav" |} in
  let st := fst (handle Sample.rt0
                   {| account := [frank]; session := []; files := ∅; dirs := ∅ |}
                   autosave) in
  let msg := Sample.login 9 "frank" "pass" in
  type msg = player_login 41 "frank" "pass" 99 "sock" "10.0.0.1"
  ∧ lookup_account st "frank" = Some frank
  ∧ bcrypt_compare (toLowerCase "pass") (Account.password frank) = true
  ∧ banned (Date_at_ban_check Sample.rt0) frank = false
  ∧ Account.logged_in frank = 0
  ∧ nodeId msg ≠ 0
  ∧ files st !! save_path (profile msg) "frank" = None
  ∧ exists_in st (save_path (profile msg) "frank") = true
  ∧ let (st', replies) := handle Sample.rt0 st msg in
    replies = []
    ∧ Account.logged_in <$> lookup_account st' "frank" = Some (nodeId msg)
    ∧ session st' = session st ++ [session_row msg "sock" 99 "10.0.0.1" frank].
Proof.
  intros P frank autosave st msg. do 5 (split; [reflexivity|]).
  split; [simpl; lia|]. do 2 (split; [by vm_compute|]).
  apply (login_save_path_not_a_file (H := P) Sample.rt0 st msg
           41 "frank" "pass" 99 "sock" "10.0.0.1" frank);
    first [reflexivity | (simpl; lia) | by vm_compute].
Defined.

Lemma save_path_injective_witness :
  no_slash "carol" = true
  ∧ no_slash ("car" +:+ "ol") = true
  ∧ save_path "main" "carol" = save_path ("ma" +:+ "in") ("car" +:+ "ol")
  ∧ ("main" : string) = "ma" +:+ "in" ∧ ("carol" : string) = "car" +:+ "ol".
Proof.
  do 3 (split; [reflexivity|]).
  apply (save_path_injective "main" ("ma" +:+ "in") "carol" ("car" +:+ "ol"));
    reflexivity.
Defined.

Lemma write_keeps_other_saves_witness :
  let P := Sample.platform true in
  let save := string_of_list_byte [x20; x04; x07] in
  let msg := {| type := player_logout 42 "bob" save;
                nodeId := 7; nodeTime := 6000; profile := "main" |} in
  ((∃ replyTo, type msg = player_logout replyTo "bob" save)
   ∨ type msg = player_autosave "bob" save)
  ∧ plain_name (profile msg) = true
  ∧ plain_name "main" = true
  ∧ no_slash "bob" = true
  ∧ no_slash "carol" = true
  ∧ (profile msg, "bob"%string) ≠ ("main"%string, "carol"%string)
  ∧ files (fst (handle Sample.rt0 Sample.st0 msg)) !! save_path "main" "carol"
    = files Sample.st0 !! save_path "main" "carol".
Proof.
  intros P save msg.
  assert (Hty : (∃ replyTo, type msg = player_logout replyTo "bob" save)
                ∨ type msg = player_autosave "bob" save)
    by (left; exists 42; reflexivity).
  assert (Hne : (profile msg, "bob"%string) ≠ ("main"%string, "carol"%string))
    by (intros Heq; discriminate Heq).
  split; [exact Hty|]. do 4 (split; [reflexivity|]). split; [exact Hne|].
  apply (write_keeps_other_saves (H := P) Sample.rt0 Sample.st0 msg "bob" save
           "main" "carol" Hty eq_refl eq_refl eq_refl eq_refl Hne).
Defined.

Lemma sample_ids_unique : ids_unique Sample.st0.
Proof. unfold ids_unique. apply (bool_decide_unpack _). by vm_compute. Qed.

Lemma owner_kept_until_release_witness :
  let P := Sample.platform true in
  let msg := Sample.login 9 "bob" "hunter2" in
  ids_unique Sample.st0
  ∧ account Sample.st0 !! 0%nat = Some Sample.bob
  ∧ Account.logged_in Sample.bob ≠ 0
  ∧ ∃ a', account (fst (handle Sample.rt0 Sample.st0 msg)) !! 0%nat = Some a'
          ∧ (Account.logged_in a' = Account.logged_in Sample.bob
             ∨ Account.logged_in a' = 0).
Proof.
  intros P msg.
  assert (Hown : Account.logged_in Sample.bob ≠ 0) by (simpl; lia).
  split; [exact sample_ids_unique|]. split; [reflexivity|]. split; [exact Hown|].
  apply (owner_kept_until_release (H := P) Sample.rt0 Sample.st0 msg 0%nat
           Sample.bob sample_ids_unique eq_refl Hown).
Defined.

Lemma logins_interleaved_both_claim_witness :
  let P := Sample.platform true in
  lookup_account Sample.st0 "carol" = Some Sample.carol
  ∧ Account.logged_in Sample.carol = 0
  ∧ 9 ≠ 0
  ∧ 3 ≠ 0
  ∧ bcrypt_compare (toLowerCase "secret") (Account.password Sample.carol) = true
  ∧ bcrypt_compare (toLowerCase "SECRET") (Account.password Sample.carol) = true
  ∧ banned (Date_at_ban_check Sample.rt0) Sample.carol = false
  ∧ let (st1, replies1) :=
      run_on (login_after_select Sample.rt0 9 4000 "beta" 41 "carol" "secret" 99
                "sock" "10.0.0.1" (Some Sample.carol)) Sample.st0 in
    let (st2, replies2) :=
      run_on (login_after_select Sample.rt0 3 4001 "beta" 17 "carol" "SECRET" 98
                "sock2" "10.0.0.2" (Some Sample.carol)) st1 in
    (∀ r, r ∈ replies1 ++ replies2 → Reply.response r = 0 ∨ Reply.response r = 4)
    ∧ (exists_in Sample.st0 (save_path "beta" "carol") = false →
         replies1 = [reply_no_save 41 Sample.carol])
    ∧ (exists_in Sample.st0 (save_path "beta" "carol") = false →
         replies2 = [reply_no_save 17 Sample.carol])
    ∧ Account.logged_in <$> lookup_account st1 "carol" = Some 9
    ∧ Account.logged_in <$> lookup_account st2 "carol" = Some 3.
Proof.
  intros P. do 2 (split; [reflexivity|]). do 2 (split; [lia|]).
  do 3 (split; [reflexivity|]).
  apply (logins_interleaved_both_claim (H := P) Sample.st0 "carol" Sample.carol
           Sample.rt0 9 4000 "beta" 41 "secret" 99 "sock" "10.0.0.1"
           Sample.rt0 3 4001 "beta" 17 "SECRET" 98 "sock2" "10.0.0.2");
    first [reflexivity | lia].
Defined.
